(** * Voice CAPTCHA server: challenge lifecycle, verification and throttling

    A shallow embedding of [app.py] (the Flask application) in Rocq.

    - Python [str] values are Rocq strings whose characters are read as the
      code points U+0000 .. U+00FF.
    - [datetime] values are integers: microseconds on the naive local time
      line; a [timedelta] is a difference of two of them.
    - The [challenges] table of [captcha.db] is a finite map from the primary
      key [id] to the remaining five columns; the module-level dictionary
      [challenge_attempts] is a finite map from the remote address to the
      time of the last admitted call.
    - The [random] module is a stream of raw draws that the handlers consume
      in the order in which the source calls it.
    - [hashlib.md5] and the rendering of a [datetime] as text are library
      functions, taken as parameters.
    - Handlers are functions from the server state and the request to the new
      state and the reply; an exception escaping a handler is a reply of its
      own. Requests are handled one at a time.
    - Request fields are the scalar JSON values; a challenge id is a string
      or absent. Every column holds a value of its declared type, and
      [attempts] is an integer without an upper limit. *)

From stdpp Require Import gmap strings list fin_maps pretty.
From Stdlib Require Import ZArith Ascii.

(* ===================================================================== *)
(** ** Python values and built-ins used by the handlers *)
(* ===================================================================== *)

(** A scalar JSON value as [request.json] delivers it to Python. *)
Inductive pyval : Type :=
  | PyNone
  | PyBool (b : bool)
  | PyInt (n : Z)
  | PyStr (s : string).

(** [str(v)] *)
Definition py_str (v : pyval) : string :=
  match v with
  | PyNone => "None"
  | PyBool true => "True"
  | PyBool false => "False"
  | PyInt n => pretty n
  | PyStr s => s
  end.

(** [bool(v)], the test behind [if v], [not v], [a and b]. *)
Definition py_truthy (v : pyval) : bool :=
  match v with
  | PyNone => false
  | PyBool b => b
  | PyInt n => negb (n =? 0)%Z
  | PyStr s => negb (String.eqb s "")
  end.

(** Truth value of a Python list and of a string. *)
Definition list_truthy {A} (l : list A) : bool :=
  match l with [] => false | _ :: _ => true end.

Definition str_truthy (s : string) : bool :=
  match s with EmptyString => false | String _ _ => true end.

(** One character of [str.isdigit]: the ASCII digits, and the three
    characters below U+0100 whose numeric type is Digit (superscript two,
    three and one). *)
Definition char_isdigit (c : ascii) : bool :=
  let n := Ascii.N_of_ascii c in
  ((48 <=? n) && (n <=? 57) || (n =? 178) || (n =? 179) || (n =? 185))%N.

Fixpoint str_all (f : ascii → bool) (s : string) : bool :=
  match s with
  | EmptyString => true
  | String c s' => f c && str_all f s'
  end.

(** [str.isdigit]: every character is a digit and there is at least one. *)
Definition str_isdigit (s : string) : bool :=
  str_truthy s && str_all char_isdigit s.

(** Iterating a [str] yields its characters as one-character strings. *)
Fixpoint str_iter (s : string) : list string :=
  match s with
  | EmptyString => []
  | String c s' => String c EmptyString :: str_iter s'
  end.

(** [filter(f, s)] *)
Definition py_filter (f : string → bool) (s : string) : list string :=
  List.filter f (str_iter s).

(** [sep.join(parts)] *)
Fixpoint str_join (sep : string) (parts : list string) : string :=
  match parts with
  | [] => ""
  | [p] => p
  | p :: rest => p +:+ sep +:+ str_join sep rest
  end.

(** [''.join(filter(str.isdigit, s))], the cleaning step of [verify_response]. *)
Definition clean (s : string) : string :=
  str_join "" (py_filter str_isdigit s).

(** The same cleaning written as the policy reads: keep the characters that
    are digits, in their order. *)
Fixpoint digits_only (s : string) : string :=
  match s with
  | EmptyString => EmptyString
  | String c s' =>
      if char_isdigit c then String c (digits_only s') else digits_only s'
  end.

(** [s[:n]] *)
Fixpoint str_take (n : nat) (s : string) : string :=
  match n, s with
  | S n', String c s' => String c (str_take n' s')
  | _, _ => EmptyString
  end.

(** [f"{i:03d}"] for a natural number. *)
Definition fmt_03d (i : nat) : string :=
  let d := pretty i in
  match String.length d with
  | 1 => "00" +:+ d
  | 2 => "0" +:+ d
  | _ => d
  end.

(* ===================================================================== *)
(** ** The [random] module *)
(* ===================================================================== *)

(** The generator's future: draw number [k] from now on. *)
Definition rng : Type := nat → nat.

Definition rng_next (g : rng) : nat * rng := (g 0, λ k, g (S k)).

(** [random.randint(a, b)]: uniform on [a .. b], both ends included. *)
Definition randint (a b : nat) (g : rng) : nat * rng :=
  let '(d, g') := rng_next g in (a + d `mod` (b - a + 1), g').

(** One element of [population], as [random.choices] picks each of its [k]. *)
Definition choice (population : string) (g : rng) : string * rng :=
  let '(d, g') := rng_next g in
  (match String.get (d `mod` String.length population) population with
   | Some c => String c EmptyString
   | None => EmptyString
   end, g').

(** [random.choices(population, k=k)] *)
Fixpoint choices (population : string) (k : nat) (g : rng) : list string * rng :=
  match k with
  | 0 => ([], g)
  | S k' =>
      let '(c, g1) := choice population g in
      let '(cs, g2) := choices population k' g1 in
      (c :: cs, g2)
  end.

(* ===================================================================== *)
(** ** [SimpleDatasetLoader] *)
(* ===================================================================== *)

Record SimpleDatasetLoader : Type := {
  audio_files : list string;
  text_labels : list string;
  loader_use_dataset : bool
}.

(** [SimpleDatasetLoader.__init__] *)
Definition SimpleDatasetLoader_init : SimpleDatasetLoader :=
  {| audio_files := []; text_labels := []; loader_use_dataset := false |}.

(** [download_dataset] *)
Definition download_dataset (l : SimpleDatasetLoader) : SimpleDatasetLoader :=
  {| audio_files := audio_files l; text_labels := text_labels l;
     loader_use_dataset := true |}.

(** The body of the [for i in range(max_samples)] loop, [todo] rounds from
    index [i] on. *)
Fixpoint load_loop (todo i : nat) (files labels : list string) (g : rng)
  : list string * list string * rng :=
  match todo with
  | 0 => (files, labels, g)
  | S todo' =>
      let '(k, g1) := randint 3 6 g in
      let '(cs, g2) := choices "0123456789" k g1 in
      let sequence := str_join "" cs in
      load_loop todo' (S i)
        (files ++ ["/simulated/audio/audio_" +:+ fmt_03d i +:+ ".wav"])
        (labels ++ [sequence]) g2
  end.

(** [load_audio_samples] *)
Definition load_audio_samples (max_samples : nat) (l : SimpleDatasetLoader)
    (g : rng) : SimpleDatasetLoader * rng :=
  let '(files, labels, g') := load_loop max_samples 0 [] [] g in
  ({| audio_files := files; text_labels := labels;
      loader_use_dataset := loader_use_dataset l |}, g').

(** [get_random_captcha]: the pair [(audio_path, true_text)], or
    [(None, None)]. *)
Definition get_random_captcha (l : SimpleDatasetLoader) (g : rng)
  : option (string * string) * SimpleDatasetLoader * rng :=
  let '(l1, g1) :=
    if list_truthy (audio_files l) then (l, g)
    else load_audio_samples 50 l g in
  if list_truthy (audio_files l1) then
    let '(idx, g2) := randint 0 (length (audio_files l1) - 1) g1 in
    (* [text_labels[idx]] raises IndexError when the label is missing;
       both lists always have the same length. *)
    (Some (nth idx (audio_files l1) "", nth idx (text_labels l1) ""), l1, g2)
  else (None, l1, g1).

(* ===================================================================== *)
(** ** [EnhancedAudioCaptchaGenerator] *)
(* ===================================================================== *)

(** The dictionaries the generator returns, by their ['type']. *)
Inductive challenge : Type :=
  | Dataset_audio (audio_path true_text message : string)
  | Synthetic (sequence message : string).

(** [challenge['type']] *)
Definition challenge_type_of (c : challenge) : string :=
  match c with
  | Dataset_audio _ _ _ => "dataset_audio"
  | Synthetic _ _ => "synthetic"
  end.

(** [challenge['message']] *)
Definition challenge_message (c : challenge) : string :=
  match c with
  | Dataset_audio _ _ m => m
  | Synthetic _ m => m
  end.

(** [challenge.get('true_text', challenge.get('sequence', ''))] *)
Definition challenge_text_of (c : challenge) : string :=
  match c with
  | Dataset_audio _ t _ => t
  | Synthetic s _ => s
  end.

(** [generate_synthetic_challenge] *)
Definition generate_synthetic_challenge (g : rng) : challenge * rng :=
  let '(cs, g') := choices "0123456789" 4 g in
  let sequence := str_join "" cs in
  (Synthetic sequence ("Please speak or type the sequence: " +:+ sequence), g').

(** [generate_challenge_from_dataset], for a generator whose flag is
    [use_dataset] and whose loader is [l]. *)
Definition generate_challenge_from_dataset (use_dataset : bool)
    (l : SimpleDatasetLoader) (g : rng)
  : challenge * SimpleDatasetLoader * rng :=
  if negb use_dataset then
    let '(c, g') := generate_synthetic_challenge g in (c, l, g')
  else
    let '(r, l1, g1) := get_random_captcha l g in
    match r with
    | Some (audio_path, true_text) =>
        if str_truthy audio_path && str_truthy true_text then
          (Dataset_audio audio_path true_text
             ("Listen to the audio and type what you hear. The sequence has "
              +:+ pretty (String.length true_text) +:+ " digits."), l1, g1)
        else
          let '(c, g2) := generate_synthetic_challenge g1 in (c, l1, g2)
    | None =>
        let '(c, g2) := generate_synthetic_challenge g1 in (c, l1, g2)
    end.

(** [initialize_dataset]: the loader and the generator's [use_dataset] flag
    after [download_dataset] and [load_audio_samples()], and the value
    returned; the [except] branch needs an exception, and none of the calls
    raises. *)
Definition initialize_dataset (l : SimpleDatasetLoader) (g : rng)
  : SimpleDatasetLoader * bool * bool * rng :=
  let l1 := download_dataset l in
  let '(l2, g') := load_audio_samples 100 l1 g in
  (l2, true, true, g').

(* ===================================================================== *)
(** ** The [challenges] table *)
(* ===================================================================== *)

(** One row of [challenges], without its key: the columns [sequence],
    [created_at], [attempts], [solved] and [challenge_type]. *)
Record challenge_row : Type := {
  sequence : string;
  created_at : Z;
  attempts : Z;
  solved : bool;
  challenge_type : string
}.

Definition set_attempts (v : Z) (r : challenge_row) : challenge_row :=
  {| sequence := sequence r; created_at := created_at r; attempts := v;
     solved := solved r; challenge_type := challenge_type r |}.

Definition set_solved (v : bool) (r : challenge_row) : challenge_row :=
  {| sequence := sequence r; created_at := created_at r;
     attempts := attempts r; solved := v;
     challenge_type := challenge_type r |}.

(** [SELECT sequence, attempts FROM challenges WHERE id = ?], [fetchone()] *)
Definition select_sequence_attempts (id : string)
    (tbl : gmap string challenge_row) : option (string * Z) :=
  (λ r, (sequence r, attempts r)) <$> tbl !! id.

(** [UPDATE challenges SET attempts = ? WHERE id = ?] *)
Definition update_attempts (v : Z) (id : string)
    (tbl : gmap string challenge_row) : gmap string challenge_row :=
  alter (set_attempts v) id tbl.

(** [UPDATE challenges SET solved = ? WHERE id = ?] *)
Definition update_solved (v : bool) (id : string)
    (tbl : gmap string challenge_row) : gmap string challenge_row :=
  alter (set_solved v) id tbl.

(** [INSERT INTO challenges (id, sequence, created_at, challenge_type)]:
    [attempts] and [solved] take the defaults of the schema, [0] and [FALSE];
    a second row under a primary key that is taken is refused
    ([sqlite3.IntegrityError]), which is [None] here. *)
Definition insert_challenge (id text : string) (created : Z) (kind : string)
    (tbl : gmap string challenge_row) : option (gmap string challenge_row) :=
  match tbl !! id with
  | Some _ => None
  | None =>
      Some (<[id := {| sequence := text; created_at := created;
                       attempts := 0; solved := false;
                       challenge_type := kind |}]> tbl)
  end.

(* ===================================================================== *)
(** ** Server state *)
(* ===================================================================== *)

(** The module-level objects of [app.py] and the database file. *)
Record server : Type := {
  dataset_loader : SimpleDatasetLoader;
  generator_use_dataset : bool;          (* enhanced_generator.use_dataset *)
  dataset_initialized : bool;
  challenge_attempts : gmap string Z;    (* remote address -> datetime *)
  challenges : gmap string challenge_row;  (* captcha.db *)
  random_state : rng
}.

Definition with_challenge_attempts (m : gmap string Z) (s : server) : server :=
  {| dataset_loader := dataset_loader s;
     generator_use_dataset := generator_use_dataset s;
     dataset_initialized := dataset_initialized s;
     challenge_attempts := m;
     challenges := challenges s;
     random_state := random_state s |}.

Definition with_challenges (tbl : gmap string challenge_row) (s : server)
  : server :=
  {| dataset_loader := dataset_loader s;
     generator_use_dataset := generator_use_dataset s;
     dataset_initialized := dataset_initialized s;
     challenge_attempts := challenge_attempts s;
     challenges := tbl;
     random_state := random_state s |}.

Definition with_source (l : SimpleDatasetLoader) (g : rng) (s : server)
  : server :=
  {| dataset_loader := l;
     generator_use_dataset := generator_use_dataset s;
     dataset_initialized := dataset_initialized s;
     challenge_attempts := challenge_attempts s;
     challenges := challenges s;
     random_state := g |}.

(** The state once the module has been imported and [init_db] has created
    an empty table: loader and generator constructed, [initialize_dataset]
    run, [challenge_attempts = {}]. *)
Definition boot (g : rng) : server :=
  let '(l, use_dataset, initialized, g') :=
    initialize_dataset SimpleDatasetLoader_init g in
  {| dataset_loader := l;
     generator_use_dataset := use_dataset;
     dataset_initialized := initialized;
     challenge_attempts := ∅;
     challenges := ∅;
     random_state := g' |}.

(* ===================================================================== *)
(** ** [/api/verify-response] *)
(* ===================================================================== *)

(** The two fields [verify_response] reads from the request body.
    [vd_challenge_id] is [data.get('challenge_id')]: [None] when the key is
    absent or null, the string otherwise. [vd_response] is the value under
    ['response'], [None] when the key is absent. *)
Record verify_data : Type := {
  vd_challenge_id : option string;
  vd_response : option pyval
}.

(** The four dictionaries [verify_response] can return. *)
Inductive verify_reply : Type :=
  | Rate_limited
  | Missing_challenge_id
  | Invalid_challenge
  | Verdict (success : bool) (expected provided : string).

(** What [jsonify] is given for each of them. *)
Definition verify_reply_json (r : verify_reply) : list (string * pyval) :=
  match r with
  | Rate_limited =>
      [("success", PyBool false);
       ("message", PyStr "Please wait before trying again");
       ("rate_limited", PyBool true)]
  | Missing_challenge_id =>
      [("success", PyBool false); ("error", PyStr "Missing challenge_id")]
  | Invalid_challenge =>
      [("success", PyBool false); ("error", PyStr "Invalid challenge")]
  | Verdict success expected provided =>
      [("success", PyBool success);
       ("message", PyStr (if success then "Access granted" else "Access denied"));
       ("expected", PyStr expected);
       ("provided", PyStr provided)]
  end.

(** Lookup in such a dictionary. *)
Fixpoint json_get (k : string) (d : list (string * pyval)) : option pyval :=
  match d with
  | [] => None
  | (k', v) :: d' => if String.eqb k k' then Some v else json_get k d'
  end.

(** [timedelta(seconds=n)] in microseconds. *)
Definition timedelta_seconds (n : Z) : Z := (n * 1000000)%Z.

(** The [if ip_address in challenge_attempts: ...] test that ends in the
    early return. *)
Definition rate_limited (m : gmap string Z) (ip_address : string) (now : Z)
  : bool :=
  match m !! ip_address with
  | Some last_attempt => (now - last_attempt <? timedelta_seconds 2)%Z
  | None => false
  end.

(** [verify_response]: [data] is [request.json or {}], [ip_address] is
    [request.remote_addr] and [now] the reading of [datetime.now()]. *)
Definition verify_response (s : server) (data : verify_data)
    (ip_address : string) (now : Z) : server * verify_reply :=
  let challenge_id := vd_challenge_id data in
  let user_response := default (PyStr "") (vd_response data) in
  if rate_limited (challenge_attempts s) ip_address now then (s, Rate_limited)
  else
    let s1 :=
      with_challenge_attempts (<[ip_address := now]> (challenge_attempts s)) s in
    match challenge_id with
    | None => (s1, Missing_challenge_id)
    | Some challenge_id =>
        if negb (str_truthy challenge_id) then (s1, Missing_challenge_id)
        else
          match select_sequence_attempts challenge_id (challenges s1) with
          | None => (s1, Invalid_challenge)
          | Some (sequence, attempts) =>
              let s2 :=
                with_challenges
                  (update_attempts (attempts + 1) challenge_id (challenges s1))
                  s1 in
              let user_clean := clean (py_str user_response) in
              let sequence_clean := clean sequence in
              let success := String.eqb user_clean sequence_clean in
              let s3 :=
                if success
                then with_challenges
                       (update_solved true challenge_id (challenges s2)) s2
                else s2 in
              (s3, Verdict success sequence_clean user_clean)
          end
    end.

(* ===================================================================== *)
(** ** The creation handlers and whole runs of the server *)
(* ===================================================================== *)

(** An exception that leaves a handler (the client sees a 500 reply). *)
Inductive exn : Type := IntegrityError.

Inductive outcome (A : Type) : Type :=
  | Returned (a : A)
  | Raised (e : exn).
Arguments Returned {A} a.
Arguments Raised {A} e.

(** The body [enhanced_generate_challenge] hands to [jsonify]. *)
Record generate_reply : Type := {
  gr_challenge_id : string;
  gr_challenge_type : string;
  gr_message : string;
  gr_sequence_length : nat;
  gr_audio_support : bool;
  gr_audio_type : string;
  gr_accessible : bool;
  gr_audio_url : option string;
  gr_note : string;
  gr_sequence : string
}.

(** The body [alternative_challenge] hands to [jsonify]. *)
Record alternative_reply : Type := {
  ar_challenge_id : string;
  ar_sequence : string;
  ar_message : string;
  ar_type : string;
  ar_accessibility_note : string
}.

(** A request, with the readings of the clock its handler takes. *)
Inductive request : Type :=
  | Verify (data : verify_data) (ip_address : string) (now : Z)
  | Generate (use_dataset : option pyval) (now_id now_row : Z)
  | Alternative (now_id now_row : Z).

Inductive reply : Type :=
  | Verify_reply (r : verify_reply)
  | Generate_reply (r : outcome generate_reply)
  | Alternative_reply (r : outcome alternative_reply).

Section Handlers.

(** [hashlib.md5(s.encode()).hexdigest()] and [str] of a [datetime]. *)
Variable md5_hexdigest : string → string.
Variable datetime_str : Z → string.

(** [hashlib.md5(f"{text}{datetime.now()}".encode()).hexdigest()[:16]] *)
Definition mint_id (text : string) (now : Z) : string :=
  str_take 16 (md5_hexdigest (text +:+ datetime_str now)).

(** The [if use_dataset and enhanced_generator.use_dataset: ... else: ...]
    block of [enhanced_generate_challenge]: the challenge generated, with the
    loader and the generator state left behind. *)
Definition generated_challenge (s : server) (use_dataset : pyval)
  : challenge * SimpleDatasetLoader * rng :=
  if py_truthy use_dataset && generator_use_dataset s then
    generate_challenge_from_dataset
      (generator_use_dataset s) (dataset_loader s) (random_state s)
  else
    let '(c, g) := generate_synthetic_challenge (random_state s) in
    (c, dataset_loader s, g).

(** [/api/enhanced/generate-challenge]. [use_dataset] is the value under
    ['use_dataset'] in the body, if any; [now_id] and [now_row] are the two
    readings of [datetime.now()]. *)
Definition enhanced_generate_challenge (s : server)
    (use_dataset : option pyval) (now_id now_row : Z)
  : server * outcome generate_reply :=
  let use_dataset := default (PyBool true) use_dataset in
  let '(challenge, l, g) := generated_challenge s use_dataset in
  let s1 := with_source l g s in
  let challenge_text := challenge_text_of challenge in
  let challenge_id := mint_id challenge_text now_id in
  match insert_challenge challenge_id challenge_text now_row
          (challenge_type_of challenge) (challenges s1) with
  | None => (s1, Raised IntegrityError)
  | Some tbl =>
      let dataset := String.eqb (challenge_type_of challenge) "dataset_audio" in
      (with_challenges tbl s1,
       Returned
         {| gr_challenge_id := challenge_id;
            gr_challenge_type := challenge_type_of challenge;
            gr_message := challenge_message challenge;
            gr_sequence_length := String.length challenge_text;
            gr_audio_support := true;
            gr_audio_type := if dataset then "pre_recorded" else "browser_tts";
            gr_accessible := true;
            gr_audio_url :=
              if dataset then Some ("/api/audio/" +:+ challenge_id) else None;
            gr_note :=
              if dataset then "Audio challenge from dataset"
              else "Synthetic text challenge with browser text-to-speech";
            gr_sequence := challenge_text |})
  end.

(** [/api/alternative-challenge] *)
Definition alternative_challenge (s : server) (now_id now_row : Z)
  : server * outcome alternative_reply :=
  let '(cs, g) := choices "0123456789" 3 (random_state s) in
  let sequence := str_join "" cs in
  let s1 := with_source (dataset_loader s) g s in
  let challenge_id := mint_id sequence now_id in
  match insert_challenge challenge_id sequence now_row "alternative"
          (challenges s1) with
  | None => (s1, Raised IntegrityError)
  | Some tbl =>
      (with_challenges tbl s1,
       Returned
         {| ar_challenge_id := challenge_id;
            ar_sequence := sequence;
            ar_message := "Alternative challenge: Please type " +:+ sequence;
            ar_type := "alternative_digits";
            ar_accessibility_note :=
              "Simplified challenge with shorter sequence" |})
  end.

(** One request served. *)
Definition handle (s : server) (r : request) : server * reply :=
  match r with
  | Verify data ip_address now =>
      let '(s', v) := verify_response s data ip_address now in
      (s', Verify_reply v)
  | Generate use_dataset now_id now_row =>
      let '(s', o) := enhanced_generate_challenge s use_dataset now_id now_row in
      (s', Generate_reply o)
  | Alternative now_id now_row =>
      let '(s', o) := alternative_challenge s now_id now_row in
      (s', Alternative_reply o)
  end.

(** The state after a sequence of requests. *)
Definition run (s : server) (rs : list request) : server :=
  foldl (λ s r, fst (handle s r)) s rs.

(** The states the server can be in: started on an empty table, then any
    requests. *)
Inductive reachable : server → Prop :=
  | reachable_boot (g : rng) : reachable (boot g)
  | reachable_handle (s : server) (r : request) :
      reachable s → reachable (fst (handle s r)).

(** The sequence a creation reply discloses, with its kind. *)
Definition issued (r : reply) : option (string * string) :=
  match r with
  | Generate_reply (Returned g) => Some (gr_challenge_type g, gr_sequence g)
  | Alternative_reply (Returned a) => Some ("alternative", ar_sequence a)
  | _ => None
  end.

End Handlers.

(** The ten ASCII digits. *)
Definition ascii_digit (c : ascii) : bool :=
  let n := Ascii.N_of_ascii c in ((48 <=? n) && (n <=? 57))%N.

(* ===================================================================== *)
(** ** Concrete inputs used in the examples below *)
(* ===================================================================== *)

Module Sample.

(** Stand-ins for the two library functions: 32 characters whatever the
    input, and the number of microseconds in decimal. *)
Definition md5 (s : string) : string :=
  str_take 32 (s +:+ "0123456789abcdef0123456789abcdef").
Definition dt (t : Z) : string := pretty t.

(** A generator that draws 7, 0, 4, 2 and then zeros. *)
Definition draws_7042 : rng := λ k, nth k [7; 0; 4; 2] 0.

(** A generator with a longer period. *)
Definition draws : rng := λ k, (k * 7 + 3) `mod` 1000.

Definition row (text : string) (n : Z) (b : bool) : challenge_row :=
  {| sequence := text; created_at := 0; attempts := n; solved := b;
     challenge_type := "synthetic" |}.

Definition empty_server : server :=
  {| dataset_loader := SimpleDatasetLoader_init;
     generator_use_dataset := false;
     dataset_initialized := false;
     challenge_attempts := ∅;
     challenges := ∅;
     random_state := draws_7042 |}.

(** A server holding one pending challenge ["c1"] with answer ["7042"]. *)
Definition one_pending : server :=
  with_challenges {[ "c1" := row "7042" 0 false ]} empty_server.

(** The same, where the client 10.0.0.1 was last admitted at second 10. *)
Definition one_pending_seen : server :=
  with_challenge_attempts {[ "10.0.0.1" := 10000000%Z ]} one_pending.

Definition body (id : string) (v : pyval) : verify_data :=
  {| vd_challenge_id := Some id; vd_response := Some v |}.

(** A server holding the challenge ["c1"], solved at the third attempt. *)
Definition one_solved : server :=
  with_challenges {[ "c1" := row "7042" 3 true ]} empty_server.

(** A server holding one pending challenge ["c2"] with answer ["1234"]. *)
Definition one_1234 : server :=
  with_challenges {[ "c2" := row "1234" 0 false ]} empty_server.

(** A table edited by hand: one pending challenge ["c3"] whose answer has
    no digit. *)
Definition alpha_pending : server :=
  with_challenges {[ "c3" := row "abcd" 0 false ]} empty_server.

(** A wrong answer, the right one two seconds later, a new challenge, and a
    wrong answer again. *)
Definition visits : list request :=
  [Verify (body "c1" (PyStr "0000")) "10.0.0.1" 0;
   Verify (body "c1" (PyStr "7042")) "10.0.0.1" 2000000;
   Alternative 7 8;
   Verify (body "c1" (PyStr "1111")) "10.0.0.1" 4000000].

(** The synthetic challenge generated on [empty_server]. *)
Definition after_generate : server :=
  (enhanced_generate_challenge md5 dt empty_server None 5 6).1.

Definition generate_reply_7042 : generate_reply :=
  {| gr_challenge_id := "704250123456789a";
     gr_challenge_type := "synthetic";
     gr_message := "Please speak or type the sequence: 7042";
     gr_sequence_length := 4;
     gr_audio_support := true;
     gr_audio_type := "browser_tts";
     gr_accessible := true;
     gr_audio_url := None;
     gr_note := "Synthetic text challenge with browser text-to-speech";
     gr_sequence := "7042" |}.

End Sample.

(* ===================================================================== *)
(** ** The routes that only read *)
(* ===================================================================== *)

(** The body [home] hands to [jsonify]. *)
Record home_reply : Type := {
  hr_message : string;
  hr_dataset_available : bool;
  hr_endpoints : list string
}.

(** [/] *)
Definition home (s : server) : home_reply :=
  {| hr_message := "Enhanced Voice CAPTCHA Server is running!";
     hr_dataset_available := dataset_initialized s;
     hr_endpoints :=
       ["/api/enhanced/generate-challenge";
        "/api/verify-response";
        "/api/alternative-challenge";
        "/api/audio/<challenge_id>";
        "/api/status"] |}.

(** The body [text_to_speech] hands to [jsonify]. *)
Record tts_reply : Type := {
  tts_sequence : string;
  tts_audio_available : bool;
  tts_message : string;
  tts_accessibility_note : string
}.

(** [/api/text-to-speech/<sequence>]; nothing in the [try] block raises. *)
Definition text_to_speech (sequence : string) : tts_reply :=
  {| tts_sequence := sequence;
     tts_audio_available := true;
     tts_message :=
       "Audio for sequence " +:+ sequence
       +:+ " would be generated via text-to-speech";
     tts_accessibility_note :=
       "Browser text-to-speech is used for audio challenges" |}.

(** The three replies of [serve_audio]. *)
Inductive audio_reply : Type :=
  | Audio_mock (message note sequence : string)
  | Challenge_not_found
  | Audio_not_available.

(** The HTTP status sent with each. *)
Definition audio_status (r : audio_reply) : nat :=
  match r with
  | Audio_mock _ _ _ => 200
  | Challenge_not_found => 404
  | Audio_not_available => 404
  end.

(** [SELECT sequence, challenge_type FROM challenges WHERE id = ?],
    [fetchone()] *)
Definition select_sequence_type (id : string)
    (tbl : gmap string challenge_row) : option (string * string) :=
  (λ r, (sequence r, challenge_type r)) <$> tbl !! id.

(** [/api/audio/<challenge_id>] *)
Definition serve_audio (s : server) (challenge_id : string) : audio_reply :=
  match select_sequence_type challenge_id (challenges s) with
  | None => Challenge_not_found
  | Some (sequence, challenge_type) =>
      if String.eqb challenge_type "dataset_audio" then
        Audio_mock ("Audio challenge for sequence: " +:+ sequence)
          "In production, this would return the actual audio file" sequence
      else Audio_not_available
  end.

(** The number of rows of [challenges]. *)
Definition count_challenges (tbl : gmap string challenge_row) : nat :=
  size tbl.

(** The number of rows [WHERE solved = TRUE]. *)
Definition count_solved (tbl : gmap string challenge_row) : nat :=
  size (filter (λ kv : string * challenge_row, solved kv.2 = true) tbl).

(** The number of rows [WHERE challenge_type = "dataset_audio"]. *)
Definition count_dataset (tbl : gmap string challenge_row) : nat :=
  size (filter (λ kv : string * challenge_row,
                  challenge_type kv.2 = "dataset_audio") tbl).

(** The body [status] hands to [jsonify]. *)
Record status_reply : Type := {
  sr_status : string;
  sr_dataset_available : bool;
  sr_challenges_generated : nat;
  sr_challenges_solved : nat;
  sr_dataset_challenges_used : nat;
  sr_timestamp : string
}.

(** [/api/status]; [timestamp] is [datetime.now().isoformat()]. *)
Definition status (s : server) (timestamp : string) : status_reply :=
  {| sr_status := "running";
     sr_dataset_available := dataset_initialized s;
     sr_challenges_generated := count_challenges (challenges s);
     sr_challenges_solved := count_solved (challenges s);
     sr_dataset_challenges_used := count_dataset (challenges s);
     sr_timestamp := timestamp |}.

(** What [load_audio_samples] returns:
    [list(zip(self.audio_files, self.text_labels))]. *)
Definition load_audio_samples_result (max_samples : nat)
    (l : SimpleDatasetLoader) (g : rng) : list (string * string) :=
  let l' := (load_audio_samples max_samples l g).1 in
  zip (audio_files l') (text_labels l').

(* ===================================================================== *)
(** ** [model_trainer.py]: the classification targets *)
(* ===================================================================== *)

(** [CaptchaModelTrainer.characters] *)
Definition characters : string := "0123456789abcdefghijklmnopqrstuvwxyz".

(** [s.index(sub)]: the position of the first occurrence, [None] for the
    [ValueError] raised when there is none. *)
Definition str_index (sub s : string) : option nat := String.index 0 sub s.

(** [[self.characters.index(char) for char in label[:1]]] *)
Definition label_targets (label : string) : option (list nat) :=
  mapM (λ char, str_index char characters) (str_iter (str_take 1 label)).

(** [y_numeric] of [train_model]:
    [[self.characters.index(char) for label in y for char in label[:1]]]. *)
Fixpoint y_numeric (y : list string) : option (list nat) :=
  match y with
  | [] => Some []
  | label :: y' =>
      match label_targets label with
      | None => None
      | Some t =>
          match y_numeric y' with
          | None => None
          | Some ts => Some (t ++ ts)
          end
      end
  end.

(* ===================================================================== *)
(** ** [run_project.py]: the version check *)
(* ===================================================================== *)

(** [a < b] on pairs of integers, as Python compares tuples. *)
Definition tuple_lt (a b : nat * nat) : bool :=
  if a.1 =? b.1 then a.2 <? b.2 else a.1 <? b.1.

(** [check_python_version]; [major] and [minor] are [sys.version_info[:2]]. *)
Definition check_python_version (major minor min_major min_minor : nat)
  : bool :=
  if tuple_lt (major, minor) (min_major, min_minor) then false else true.

(* ===================================================================== *)
(** ** More concrete inputs *)
(* ===================================================================== *)

Module Demo.

(** The server after start-up on [Sample.draws] and one request for a
    dataset challenge. *)
Definition started : server := boot Sample.draws.

Definition one_issued : server :=
  (enhanced_generate_challenge Sample.md5 Sample.dt started None 5 6).1.

(** A day of traffic: a wrong answer, a refused retry, the right answer, an
    alternative challenge and a synthetic one. *)
Definition traffic : list request :=
  [Verify (Sample.body "30750123456789ab" (PyStr "000")) "10.0.0.1" 10000000;
   Verify (Sample.body "30750123456789ab" (PyStr "307")) "10.0.0.1" 10500000;
   Verify (Sample.body "30750123456789ab" (PyStr "3-0-7")) "10.0.0.1" 12000000;
   Alternative 13000000 13000001;
   Generate (Some (PyBool false)) 14000000 14000001].

(** The reply to that first request. *)
Definition issued_reply : generate_reply :=
  {| gr_challenge_id := "30750123456789ab";
     gr_challenge_type := "dataset_audio";
     gr_message :=
       "Listen to the audio and type what you hear. The sequence has 3 digits.";
     gr_sequence_length := 3;
     gr_audio_support := true;
     gr_audio_type := "pre_recorded";
     gr_accessible := true;
     gr_audio_url := Some "/api/audio/30750123456789ab";
     gr_note := "Audio challenge from dataset";
     gr_sequence := "307" |}.

(** The row it created. *)
Definition issued_row : challenge_row :=
  {| sequence := "307"; created_at := 6; attempts := 0; solved := false;
     challenge_type := "dataset_audio" |}.

End Demo.

(* ===================================================================== *)
(** ** Vocabulary of the properties *)
(* ===================================================================== *)

(** A one-character string holding an ASCII digit. *)
Definition digit_char (p : string) : Prop :=
  ∃ c, p = String c "" ∧ ascii_digit c = true.

(** A string of ASCII digits whose length lies in [lo .. hi]. *)
Definition digit_sequence (lo hi : nat) (t : string) : Prop :=
  str_all ascii_digit t = true ∧ lo ≤ String.length t ≤ hi.

(** The loaders the server can hold: every label is three to six ASCII
    digits, and there is one label per audio file. *)
Definition loader_ok (l : SimpleDatasetLoader) : Prop :=
  Forall (digit_sequence 3 6) (text_labels l)
  ∧ length (audio_files l) = length (text_labels l).

(** What the generator may hand out: a dataset challenge carries a label of
    three to six digits, a synthetic one four digits. *)
Definition challenge_ok (c : challenge) : Prop :=
  match c with
  | Dataset_audio _ true_text _ => digit_sequence 3 6 true_text
  | Synthetic sequence _ => digit_sequence 4 4 sequence
  end.

(** The tables that arise: every stored answer is three to six ASCII
    digits. *)
Definition store_ok (tbl : gmap string challenge_row) : Prop :=
  ∀ cid r, tbl !! cid = Some r → digit_sequence 3 6 (sequence r).

(** The servers that arise: a loader and a table as above. *)
Definition server_ok (s : server) : Prop :=
  loader_ok (dataset_loader s) ∧ store_ok (challenges s).

(** The row a verdict leaves behind. *)
Definition attempted (success : bool) (r : challenge_row) : challenge_row :=
  {| sequence := sequence r; created_at := created_at r;
     attempts := attempts r + 1;
     solved := if success then true else solved r;
     challenge_type := challenge_type r |}.

(** [r'] is a later state of the row [r]: same answer, time of creation and
    kind, no fewer attempts, and solved if [r] was. *)
Definition row_le (r r' : challenge_row) : Prop :=
  sequence r' = sequence r
  ∧ created_at r' = created_at r
  ∧ challenge_type r' = challenge_type r
  ∧ (attempts r ≤ attempts r')%Z
  ∧ (solved r = true → solved r' = true).

(* ===================================================================== *)
(** ** Strings and cleaning *)
(* ===================================================================== *)

Lemma append_cons (c : ascii) (a b : string) :
  String c a +:+ b = String c (a +:+ b).
Proof. reflexivity. Qed.

Lemma append_empty_l (s : string) : "" +:+ s = s.
Proof. reflexivity. Qed.

Lemma append_empty_r (s : string) : s +:+ "" = s.
Proof.
  induction s as [|c s IH]; [done | by rewrite append_cons, IH].
Qed.

Lemma str_join_empty_cons (p : string) (rest : list string) :
  str_join "" (p :: rest) = p +:+ str_join "" rest.
Proof.
  destruct rest as [|q rest]; simpl;
    [symmetry; apply append_empty_r | by rewrite append_empty_l].
Qed.

(** The cleaning of the source keeps exactly the digit characters. *)
Lemma clean_digits_only (s : string) : clean s = digits_only s.
Proof.
  unfold clean, py_filter.
  induction s as [|c s IH]; [done|].
  cbn [str_iter List.filter digits_only].
  replace (str_isdigit (String c "")) with (char_isdigit c)
    by (unfold str_isdigit; simpl; by rewrite andb_true_r).
  destruct (char_isdigit c); [|done].
  by rewrite str_join_empty_cons, IH, append_cons, append_empty_l.
Qed.

Lemma ascii_digit_isdigit (c : ascii) :
  ascii_digit c = true → char_isdigit c = true.
Proof.
  unfold ascii_digit, char_isdigit. cbv zeta. intros ->. done.
Qed.

(** On a string of ASCII digits cleaning changes nothing. *)
Lemma digits_only_id (s : string) :
  str_all ascii_digit s = true → digits_only s = s.
Proof.
  induction s as [|c s IH]; simpl; [done|].
  intros [Hc Hs]%andb_true_iff.
  by rewrite (ascii_digit_isdigit _ Hc), IH.
Qed.

Lemma str_eqb_spec (a b : string) : String.eqb a b = true ↔ a = b.
Proof. apply String.eqb_eq. Qed.

Lemma length_str_take (n : nat) (s : string) :
  String.length (str_take n s) = n `min` String.length s.
Proof.
  revert s; induction n as [|n IH]; intros [|c s]; simpl; auto.
Qed.

Lemma length_append (a b : string) :
  String.length (a +:+ b) = String.length a + String.length b.
Proof.
  induction a as [|c a IH]; [done | rewrite append_cons; simpl; auto].
Qed.

Lemma str_truthy_length (s : string) :
  0 < String.length s → str_truthy s = true.
Proof. destruct s; simpl; [lia | done]. Qed.

(* ===================================================================== *)
(** ** [verify_response], case by case *)
(* ===================================================================== *)

Lemma verify_response_limited s data ip now :
  rate_limited (challenge_attempts s) ip now = true →
  verify_response s data ip now = (s, Rate_limited).
Proof. intros H. unfold verify_response. by rewrite H. Qed.

Lemma verify_response_stamp s data ip now :
  rate_limited (challenge_attempts s) ip now = false →
  challenge_attempts (verify_response s data ip now).1
    = <[ip := now]> (challenge_attempts s).
Proof.
  intros H. unfold verify_response. rewrite H.
  destruct (vd_challenge_id data) as [cid|]; [|done].
  destruct (str_truthy cid); [|done]. simpl.
  unfold select_sequence_attempts.
  destruct (challenges s !! cid) as [r|]; [|done]. simpl.
  by destruct (String.eqb _ _).
Qed.

Lemma verify_response_missing s data ip now :
  rate_limited (challenge_attempts s) ip now = false →
  (vd_challenge_id data = None ∨ vd_challenge_id data = Some "") →
  verify_response s data ip now
    = (with_challenge_attempts (<[ip := now]> (challenge_attempts s)) s,
       Missing_challenge_id).
Proof.
  intros H [Hid|Hid]; unfold verify_response; by rewrite H, Hid.
Qed.

Lemma verify_response_unknown s data ip now cid :
  rate_limited (challenge_attempts s) ip now = false →
  vd_challenge_id data = Some cid → str_truthy cid = true →
  challenges s !! cid = None →
  verify_response s data ip now
    = (with_challenge_attempts (<[ip := now]> (challenge_attempts s)) s,
       Invalid_challenge).
Proof.
  intros H Hid Hcid Hrow. unfold verify_response. rewrite H, Hid, Hcid. simpl.
  unfold select_sequence_attempts. by rewrite Hrow.
Qed.

Lemma verify_response_found s data ip now cid r :
  rate_limited (challenge_attempts s) ip now = false →
  vd_challenge_id data = Some cid → str_truthy cid = true →
  challenges s !! cid = Some r →
  let provided := clean (py_str (default (PyStr "") (vd_response data))) in
  let success := String.eqb provided (clean (sequence r)) in
  (verify_response s data ip now).2
    = Verdict success (clean (sequence r)) provided
  ∧ challenges (verify_response s data ip now).1
    = <[cid := attempted success r]> (challenges s).
Proof.
  intros H Hid Hcid Hrow provided success.
  unfold verify_response. rewrite H, Hid, Hcid. simpl.
  unfold select_sequence_attempts. rewrite Hrow. simpl.
  fold provided. fold success.
  destruct success; simpl; split; try done.
  - unfold update_solved, update_attempts.
    apply map_eq; intros k. destruct (decide (cid = k)) as [->|Hne].
    + by rewrite !lookup_alter_eq, lookup_insert_eq, Hrow.
    + by rewrite !lookup_alter_ne, lookup_insert_ne.
  - unfold update_attempts.
    apply map_eq; intros k. destruct (decide (cid = k)) as [->|Hne].
    + by rewrite lookup_alter_eq, lookup_insert_eq, Hrow.
    + by rewrite lookup_alter_ne, lookup_insert_ne.
Qed.

(** A verify call changes no row other than the one it names, and adds or
    removes none. *)
Lemma verify_response_rows s data ip now k :
  challenges (verify_response s data ip now).1 !! k = None
  ↔ challenges s !! k = None.
Proof.
  destruct (rate_limited (challenge_attempts s) ip now) eqn:H.
  { by rewrite verify_response_limited. }
  destruct (vd_challenge_id data) as [cid|] eqn:Hid.
  2:{ rewrite verify_response_missing by auto. done. }
  destruct (str_truthy cid) eqn:Hcid.
  2:{ destruct cid; [|done]. rewrite verify_response_missing by auto. done. }
  destruct (challenges s !! cid) as [r|] eqn:Hrow.
  2:{ by rewrite (verify_response_unknown _ _ _ _ cid). }
  destruct (verify_response_found s data ip now cid r) as [_ ->]; try done.
  destruct (decide (cid = k)) as [->|Hne].
  - rewrite lookup_insert_eq, Hrow. split; intros; discriminate.
  - by rewrite lookup_insert_ne.
Qed.

Lemma verify_response_admitted s data ip now :
  rate_limited (challenge_attempts s) ip now = false →
  (verify_response s data ip now).2 ≠ Rate_limited.
Proof.
  intros H. unfold verify_response. rewrite H.
  destruct (vd_challenge_id data) as [cid|]; [|done].
  destruct (str_truthy cid); [|done]. simpl.
  by destruct (select_sequence_attempts _ _) as [[? ?]|].
Qed.

Lemma rate_limited_after_stamp (m : gmap string Z) ip t1 t2 :
  (t2 - t1 < timedelta_seconds 2)%Z →
  rate_limited (<[ip := t1]> m) ip t2 = true.
Proof.
  intros H. unfold rate_limited. rewrite lookup_insert_eq. by apply Z.ltb_lt.
Qed.

(** C1. A verify call from a client whose recorded last attempt is less than
    two seconds before [now] gets the rate-limited reply
    (success false, rate_limited true), leaves the client's [last_attempt_at]
    and every challenge row as they were; a call with no record, or at least
    two seconds after the recorded attempt, is not rate limited and records
    [now] for the client. In particular a second call less than two seconds
    after an admitted one is rate limited and changes nothing. *)
Theorem C1_rate_limit_gate (s : server) (data : verify_data) (ip : string)
    (now : Z) :
  let s' := (verify_response s data ip now).1 in
  let v := (verify_response s data ip now).2 in
  (∀ last, challenge_attempts s !! ip = Some last →
     (now - last < timedelta_seconds 2)%Z →
     v = Rate_limited
     ∧ json_get "success" (verify_reply_json v) = Some (PyBool false)
     ∧ json_get "rate_limited" (verify_reply_json v) = Some (PyBool true)
     ∧ challenge_attempts s' !! ip = Some last
     ∧ challenge_attempts s' = challenge_attempts s
     ∧ challenges s' = challenges s)
  ∧ (challenge_attempts s !! ip = None
     ∨ (∃ last, challenge_attempts s !! ip = Some last
                ∧ (timedelta_seconds 2 ≤ now - last)%Z) →
     v ≠ Rate_limited
     ∧ challenge_attempts s' !! ip = Some now
     ∧ ∀ data2 now2, (now2 - now < timedelta_seconds 2)%Z →
         verify_response s' data2 ip now2 = (s', Rate_limited))
  ∧ timedelta_seconds 2 = 2000000%Z.
Proof.
  intros s' v. split; [|split; [|done]].
  - intros last Hlast Hlt.
    assert (rate_limited (challenge_attempts s) ip now = true) as H.
    { unfold rate_limited. rewrite Hlast. by apply Z.ltb_lt. }
    subst s' v. rewrite (verify_response_limited _ _ _ _ H). simpl.
    by repeat split.
  - intros Hgate.
    assert (rate_limited (challenge_attempts s) ip now = false) as H.
    { unfold rate_limited. destruct Hgate as [->|(last & -> & Hge)]; [done|].
      by apply Z.ltb_ge. }
    assert (challenge_attempts s' !! ip = Some now) as Hstamp.
    { subst s'. rewrite verify_response_stamp by done.
      apply lookup_insert_eq. }
    split; [by apply verify_response_admitted|]. split; [done|].
    intros data2 now2 Hlt. apply verify_response_limited.
    subst s'. rewrite verify_response_stamp by done.
    by apply rate_limited_after_stamp.
Qed.

(** C2. A verify call that is admitted and names an existing challenge
    compares the response and the stored answer after keeping only the digit
    characters of each, and reports success exactly when the two cleaned
    strings are equal; the response "1-2 3a4" matches the answer "1234". *)
Theorem C2_cleaned_exact_match (s : server) (data : verify_data)
    (ip : string) (now : Z) (cid : string) (r : challenge_row) :
  rate_limited (challenge_attempts s) ip now = false →
  vd_challenge_id data = Some cid → str_truthy cid = true →
  challenges s !! cid = Some r →
  let response := py_str (default (PyStr "") (vd_response data)) in
  (∃ success,
     (verify_response s data ip now).2
       = Verdict success (digits_only (sequence r)) (digits_only response)
     ∧ (success = true ↔ digits_only response = digits_only (sequence r)))
  ∧ (sequence r = "1234" → response = "1-2 3a4" →
     (verify_response s data ip now).2 = Verdict true "1234" "1234").
Proof.
  intros H Hid Hcid Hrow response.
  destruct (verify_response_found s data ip now cid r) as [Hv _]; try done.
  fold response in Hv. rewrite !clean_digits_only in Hv. split.
  - eexists. split; [exact Hv|]. apply str_eqb_spec.
  - intros Hseq Hresp. rewrite Hv, Hseq, Hresp. reflexivity.
Qed.

(** C5. A verify call that is admitted and names an id with no row gets the
    invalid-challenge reply (success false) and leaves the table as it was;
    and no verify call whatsoever adds a row: an id without a row before the
    call has none after it. *)
Theorem C5_unknown_id_untouched (s : server) (data : verify_data)
    (ip : string) (now : Z) (cid : string) :
  rate_limited (challenge_attempts s) ip now = false →
  vd_challenge_id data = Some cid → str_truthy cid = true →
  challenges s !! cid = None →
  let s' := (verify_response s data ip now).1 in
  let v := (verify_response s data ip now).2 in
  v = Invalid_challenge
  ∧ json_get "success" (verify_reply_json v) = Some (PyBool false)
  ∧ json_get "error" (verify_reply_json v) = Some (PyStr "Invalid challenge")
  ∧ challenges s' = challenges s
  ∧ ∀ s0 data0 ip0 now0 k,
      challenges s0 !! k = None →
      challenges (verify_response s0 data0 ip0 now0).1 !! k = None.
Proof.
  intros H Hid Hcid Hrow s' v. subst s' v.
  rewrite (verify_response_unknown s data ip now cid) by done. simpl.
  repeat split; try done.
  intros s0 data0 ip0 now0 k Hk. by apply verify_response_rows.
Qed.

(* ===================================================================== *)
(** ** What the sequence source produces *)
(* ===================================================================== *)

Lemma choice_digit (g : rng) : digit_char (choice "0123456789" g).1.
Proof.
  unfold choice, rng_next. cbn [fst String.length].
  pose proof (Nat.mod_upper_bound (g 0) 10 ltac:(lia)) as Hlt.
  destruct (g 0 `mod` 10) as [|[|[|[|[|[|[|[|[|[|n]]]]]]]]]];
    try lia; eexists; split; reflexivity.
Qed.

Lemma choices_digits (k : nat) (g : rng) :
  length (choices "0123456789" k g).1 = k
  ∧ Forall digit_char (choices "0123456789" k g).1.
Proof.
  revert g. induction k as [|k IH]; intros g; [by split|].
  cbn [choices].
  pose proof (choice_digit g) as Hc.
  destruct (choice "0123456789" g) as [c g1].
  specialize (IH g1). destruct (choices "0123456789" k g1) as [cs g2].
  cbn [fst] in *. destruct IH as [IHl IHf].
  split; [by rewrite <- IHl | by constructor].
Qed.

Lemma join_digit_chars (l : list string) :
  Forall digit_char l →
  String.length (str_join "" l) = length l
  ∧ str_all ascii_digit (str_join "" l) = true.
Proof.
  induction 1 as [|p l (c & -> & Hc) _ [IHl IHa]]; [done|].
  rewrite str_join_empty_cons, append_cons, append_empty_l.
  cbn [String.length str_all length]. by rewrite IHl, Hc, IHa.
Qed.

Lemma choices_sequence (k : nat) (g : rng) :
  digit_sequence k k (str_join "" (choices "0123456789" k g).1).
Proof.
  destruct (choices_digits k g) as [Hl Hf].
  destruct (join_digit_chars _ Hf) as [Hjl Hja].
  split; [done | lia].
Qed.

Lemma randint_range (a b : nat) (g : rng) :
  a ≤ b → a ≤ (randint a b g).1 ≤ b.
Proof.
  intros Hab. unfold randint, rng_next. cbn [fst].
  pose proof (Nat.mod_upper_bound (g 0) (b - a + 1) ltac:(lia)). lia.
Qed.

Lemma digit_sequence_weaken (lo hi lo' hi' : nat) (t : string) :
  lo' ≤ lo → hi ≤ hi' → digit_sequence lo hi t → digit_sequence lo' hi' t.
Proof. intros ? ? [? ?]. split; [done | lia]. Qed.

Lemma load_loop_ok (todo i : nat) (files labels : list string) (g : rng) :
  Forall (digit_sequence 3 6) labels → length files = length labels →
  Forall (digit_sequence 3 6) (load_loop todo i files labels g).1.2
  ∧ length (load_loop todo i files labels g).1.1
    = length (load_loop todo i files labels g).1.2
  ∧ length (load_loop todo i files labels g).1.2 = length labels + todo.
Proof.
  revert i files labels g.
  induction todo as [|todo IH]; intros i files labels g Hf Hl.
  { cbn. repeat split; [done | done | lia]. }
  cbn [load_loop].
  pose proof (randint_range 3 6 g ltac:(lia)) as Hk.
  destruct (randint 3 6 g) as [k g1]. cbn [fst] in Hk.
  pose proof (choices_sequence k g1) as Hseq.
  destruct (choices "0123456789" k g1) as [cs g2]. cbn [fst] in Hseq.
  edestruct (IH (S i)
    (files ++ ["/simulated/audio/audio_" +:+ fmt_03d i +:+ ".wav"])
    (labels ++ [str_join "" cs]) g2) as (H1 & H2 & H3).
  - apply Forall_app. split; [done|]. constructor; [|done].
    eapply digit_sequence_weaken; [| |exact Hseq]; lia.
  - rewrite !length_app. simpl. lia.
  - repeat split; [done | done |].
    rewrite H3, length_app. simpl. lia.
Qed.

Lemma load_audio_samples_ok (n : nat) (l : SimpleDatasetLoader) (g : rng) :
  loader_ok (load_audio_samples n l g).1
  ∧ length (text_labels (load_audio_samples n l g).1) = n.
Proof.
  unfold load_audio_samples, loader_ok.
  destruct (load_loop_ok n 0 [] [] g) as (H1 & H2 & H3); [done | done |].
  destruct (load_loop n 0 [] [] g) as [[files labels] g']. by cbn in *.
Qed.

Lemma generate_synthetic_challenge_ok (g : rng) :
  challenge_ok (generate_synthetic_challenge g).1
  ∧ challenge_type_of (generate_synthetic_challenge g).1 = "synthetic".
Proof.
  unfold generate_synthetic_challenge.
  pose proof (choices_sequence 4 g) as H.
  by destruct (choices "0123456789" 4 g) as [cs g'].
Qed.

Lemma get_random_captcha_ok (l : SimpleDatasetLoader) (g : rng) :
  loader_ok l →
  loader_ok (get_random_captcha l g).1.2
  ∧ ∀ audio_path true_text,
      (get_random_captcha l g).1.1 = Some (audio_path, true_text) →
      digit_sequence 3 6 true_text.
Proof.
  intros Hl. unfold get_random_captcha.
  set (p := if list_truthy (audio_files l) then (l, g)
            else load_audio_samples 50 l g).
  assert (loader_ok p.1) as [Hf Hlen].
  { subst p. destruct (list_truthy (audio_files l)); [done|].
    apply load_audio_samples_ok. }
  destruct p as [l1 g1]. cbn [fst] in *.
  destruct (list_truthy (audio_files l1)) eqn:Hne; [|by split].
  pose proof (randint_range 0 (length (audio_files l1) - 1) g1 ltac:(lia))
    as Hidx.
  destruct (randint 0 (length (audio_files l1) - 1) g1) as [idx g2].
  cbn [fst snd] in *. split; [by split|].
  intros audio_path true_text [= _ <-].
  eapply (proj1 (Forall_forall _ _) Hf). apply list_elem_of_In, nth_In.
  destruct (audio_files l1); [done|]. simpl in *. lia.
Qed.

Lemma generate_challenge_from_dataset_ok (use_dataset : bool)
    (l : SimpleDatasetLoader) (g : rng) :
  loader_ok l →
  loader_ok (generate_challenge_from_dataset use_dataset l g).1.2
  ∧ challenge_ok (generate_challenge_from_dataset use_dataset l g).1.1.
Proof.
  intros Hl. unfold generate_challenge_from_dataset.
  destruct use_dataset; cbn [negb].
  2:{ pose proof (generate_synthetic_challenge_ok g) as [H _].
      by destruct (generate_synthetic_challenge g). }
  destruct (get_random_captcha_ok l g Hl) as [Hl1 Ht].
  destruct (get_random_captcha l g) as [[r l1] g1]. cbn [fst snd] in *.
  destruct r as [[audio_path true_text]|].
  - destruct (str_truthy audio_path && str_truthy true_text).
    + split; [done|]. by eapply Ht.
    + pose proof (generate_synthetic_challenge_ok g1) as [H _].
      by destruct (generate_synthetic_challenge g1).
  - pose proof (generate_synthetic_challenge_ok g1) as [H _].
    by destruct (generate_synthetic_challenge g1).
Qed.

(* ===================================================================== *)
(** ** Rows over time *)
(* ===================================================================== *)

Lemma row_le_refl (r : challenge_row) : row_le r r.
Proof. unfold row_le. repeat split; try done. Qed.

Lemma row_le_trans (a b c : challenge_row) :
  row_le a b → row_le b c → row_le a c.
Proof.
  unfold row_le. intros (?&?&?&?&?) (?&?&?&?&?).
  repeat split; try congruence; [lia | auto].
Qed.

Lemma row_le_attempted (success : bool) (r : challenge_row) :
  row_le r (attempted success r).
Proof.
  unfold row_le, attempted. simpl. repeat split; try done; [lia|].
  by destruct success.
Qed.

(** Every row present before a verify call is present after it, in a later
    state; the loader, the generator flag and the random state are not
    touched. *)
Lemma verify_response_row_le s data ip now k r :
  challenges s !! k = Some r →
  ∃ r', challenges (verify_response s data ip now).1 !! k = Some r'
        ∧ row_le r r'.
Proof.
  intros Hk.
  destruct (rate_limited (challenge_attempts s) ip now) eqn:H.
  { rewrite verify_response_limited by done. eauto using row_le_refl. }
  destruct (vd_challenge_id data) as [cid|] eqn:Hid.
  2:{ rewrite verify_response_missing by auto. eauto using row_le_refl. }
  destruct (str_truthy cid) eqn:Hcid.
  2:{ destruct cid; [|done]. rewrite verify_response_missing by auto.
      eauto using row_le_refl. }
  destruct (challenges s !! cid) as [r0|] eqn:Hrow.
  2:{ rewrite (verify_response_unknown _ _ _ _ cid) by done.
      eauto using row_le_refl. }
  destruct (verify_response_found s data ip now cid r0) as [_ ->]; try done.
  destruct (decide (cid = k)) as [->|Hne].
  - rewrite lookup_insert_eq. rewrite Hrow in Hk. injection Hk as ->.
    eauto using row_le_attempted.
  - rewrite lookup_insert_ne by done. eauto using row_le_refl.
Qed.

Lemma verify_response_source s data ip now :
  dataset_loader (verify_response s data ip now).1 = dataset_loader s.
Proof.
  unfold verify_response.
  destruct (rate_limited _ _ _); [done|].
  destruct (vd_challenge_id data) as [cid|]; [|done].
  destruct (str_truthy cid); [|done]. simpl.
  destruct (select_sequence_attempts _ _) as [[? ?]|]; [|done].
  by destruct (String.eqb _ _).
Qed.

Section Runs.

Variable md5_hexdigest : string → string.
Variable datetime_str : Z → string.

(** A digest is 32 hexadecimal characters. *)
Hypothesis md5_hexdigest_length :
  ∀ s, String.length (md5_hexdigest s) = 32.

Local Abbreviation mint := (mint_id md5_hexdigest datetime_str).
Local Abbreviation generate :=
  (enhanced_generate_challenge md5_hexdigest datetime_str).
Local Abbreviation alternative :=
  (alternative_challenge md5_hexdigest datetime_str).
Local Abbreviation serve := (handle md5_hexdigest datetime_str).
Local Abbreviation runs := (run md5_hexdigest datetime_str).
Local Abbreviation reach := (reachable md5_hexdigest datetime_str).

Lemma mint_id_truthy (text : string) (now : Z) :
  str_truthy (mint text now) = true.
Proof.
  apply str_truthy_length. unfold mint_id.
  rewrite length_str_take, md5_hexdigest_length. simpl. lia.
Qed.

(** The two creation handlers, unfolded once. *)
Lemma enhanced_generate_challenge_eq s use_dataset now_id now_row :
  let c := (generated_challenge s (default (PyBool true) use_dataset)).1.1 in
  let l := (generated_challenge s (default (PyBool true) use_dataset)).1.2 in
  let g := (generated_challenge s (default (PyBool true) use_dataset)).2 in
  let id := mint (challenge_text_of c) now_id in
  let fresh :=
    {| sequence := challenge_text_of c; created_at := now_row; attempts := 0;
       solved := false; challenge_type := challenge_type_of c |} in
  match challenges s !! id with
  | Some _ =>
      generate s use_dataset now_id now_row
      = (with_source l g s, Raised IntegrityError)
  | None =>
      ∃ reply,
        generate s use_dataset now_id now_row
        = (with_challenges (<[id := fresh]> (challenges s))
             (with_source l g s), Returned reply)
        ∧ gr_challenge_id reply = id
        ∧ gr_sequence reply = challenge_text_of c
        ∧ gr_challenge_type reply = challenge_type_of c
        ∧ gr_sequence_length reply = String.length (challenge_text_of c)
  end.
Proof.
  intros c l g id fresh. subst c l g id fresh.
  unfold enhanced_generate_challenge.
  destruct (generated_challenge s (default (PyBool true) use_dataset))
    as [[c l] g]. cbn [fst snd].
  unfold insert_challenge. cbn [challenges with_source].
  destruct (challenges s !! _); [done|]. eexists. by repeat split.
Qed.

Lemma alternative_challenge_eq s now_id now_row :
  let text := str_join "" (choices "0123456789" 3 (random_state s)).1 in
  let g := (choices "0123456789" 3 (random_state s)).2 in
  let id := mint text now_id in
  let fresh :=
    {| sequence := text; created_at := now_row; attempts := 0;
       solved := false; challenge_type := "alternative" |} in
  match challenges s !! id with
  | Some _ =>
      alternative s now_id now_row
      = (with_source (dataset_loader s) g s, Raised IntegrityError)
  | None =>
      ∃ reply,
        alternative s now_id now_row
        = (with_challenges (<[id := fresh]> (challenges s))
             (with_source (dataset_loader s) g s), Returned reply)
        ∧ ar_challenge_id reply = id
        ∧ ar_sequence reply = text
  end.
Proof.
  intros text g id fresh. subst text g id fresh.
  unfold alternative_challenge.
  destruct (choices "0123456789" 3 (random_state s)) as [cs g].
  cbn [fst snd]. unfold insert_challenge. cbn [challenges with_source].
  destruct (challenges s !! _); [done|]. eexists. by repeat split.
Qed.

(** What a creation handler that returned has done. *)
Lemma generate_returned s use_dataset now_id now_row s' created :
  generate s use_dataset now_id now_row = (s', Returned created) →
  let c := (generated_challenge s (default (PyBool true) use_dataset)).1.1 in
  gr_challenge_id created = mint (challenge_text_of c) now_id
  ∧ gr_sequence created = challenge_text_of c
  ∧ gr_challenge_type created = challenge_type_of c
  ∧ challenges s'
    = <[mint (challenge_text_of c) now_id :=
          {| sequence := challenge_text_of c; created_at := now_row;
             attempts := 0; solved := false;
             challenge_type := challenge_type_of c |}]> (challenges s).
Proof.
  intros Hgen c. subst c.
  pose proof (enhanced_generate_challenge_eq s use_dataset now_id now_row)
    as Heq. cbv zeta in Heq.
  destruct (challenges s !! mint _ now_id); [congruence|].
  destruct Heq as (reply & Heq & Hid & Hseq & Hty & _).
  rewrite Heq in Hgen. injection Hgen as <- <-. done.
Qed.

Lemma alternative_returned s now_id now_row s' created :
  alternative s now_id now_row = (s', Returned created) →
  let text := str_join "" (choices "0123456789" 3 (random_state s)).1 in
  ar_challenge_id created = mint text now_id
  ∧ ar_sequence created = text
  ∧ challenges s'
    = <[mint text now_id :=
          {| sequence := text; created_at := now_row; attempts := 0;
             solved := false; challenge_type := "alternative" |}]>
        (challenges s).
Proof.
  intros Hgen text. subst text.
  pose proof (alternative_challenge_eq s now_id now_row) as Heq.
  cbv zeta in Heq.
  destruct (challenges s !! mint _ now_id); [congruence|].
  destruct Heq as (reply & Heq & Hid & Hseq).
  rewrite Heq in Hgen. injection Hgen as <- <-. done.
Qed.

(** One request keeps every row, in a later state. *)
Lemma handle_row_le s req k r :
  challenges s !! k = Some r →
  ∃ r', challenges (serve s req).1 !! k = Some r' ∧ row_le r r'.
Proof.
  intros Hk. destruct req as [data ip now|u t1 t2|t1 t2];
    cbn [handle].
  - pose proof (verify_response_row_le s data ip now k r Hk) as H.
    by destruct (verify_response s data ip now).
  - pose proof (enhanced_generate_challenge_eq s u t1 t2) as H.
    cbv zeta in H.
    destruct (challenges s !! mint _ t1) eqn:Hid.
    + rewrite H. cbn [fst challenges with_source]. eauto using row_le_refl.
    + destruct H as (reply & -> & _).
      cbn [fst challenges with_source with_challenges].
      rewrite lookup_insert_ne by (intros Heq; rewrite Heq in Hid; congruence).
      eauto using row_le_refl.
  - pose proof (alternative_challenge_eq s t1 t2) as H. cbv zeta in H.
    destruct (challenges s !! mint _ t1) eqn:Hid.
    + rewrite H. cbn [fst challenges with_source]. eauto using row_le_refl.
    + destruct H as (reply & -> & _).
      cbn [fst challenges with_source with_challenges].
      rewrite lookup_insert_ne by (intros Heq; rewrite Heq in Hid; congruence).
      eauto using row_le_refl.
Qed.

Lemma run_row_le rs s k r :
  challenges s !! k = Some r →
  ∃ r', challenges (runs s rs) !! k = Some r' ∧ row_le r r'.
Proof.
  revert s r. induction rs as [|req rs IH]; intros s r Hk.
  { eauto using row_le_refl. }
  destruct (handle_row_le s req k r Hk) as (r1 & Hk1 & Hle1).
  destruct (IH _ _ Hk1) as (r2 & Hk2 & Hle2).
  exists r2. split; [exact Hk2 | by eapply row_le_trans].
Qed.

Lemma run_app s rs1 rs2 : runs s (rs1 ++ rs2) = runs (runs s rs1) rs2.
Proof. apply foldl_app. Qed.

Lemma store_ok_insert id r (tbl : gmap string challenge_row) :
  store_ok tbl → digit_sequence 3 6 (sequence r) →
  store_ok (<[id := r]> tbl).
Proof.
  intros Htbl Hr k r'. destruct (decide (id = k)) as [->|Hne].
  - rewrite lookup_insert_eq. by intros [= <-].
  - rewrite lookup_insert_ne by done. apply Htbl.
Qed.

Lemma challenge_ok_text (c : challenge) :
  challenge_ok c →
  (challenge_type_of c = "dataset_audio"
   ∧ digit_sequence 3 6 (challenge_text_of c))
  ∨ (challenge_type_of c = "synthetic"
     ∧ digit_sequence 4 4 (challenge_text_of c)).
Proof. destruct c; simpl; auto. Qed.

Lemma generated_challenge_ok (s : server) (use_dataset : pyval) :
  loader_ok (dataset_loader s) →
  loader_ok (generated_challenge s use_dataset).1.2
  ∧ challenge_ok (generated_challenge s use_dataset).1.1.
Proof.
  intros Hl. unfold generated_challenge.
  destruct (py_truthy use_dataset && generator_use_dataset s).
  - by apply generate_challenge_from_dataset_ok.
  - pose proof (generate_synthetic_challenge_ok (random_state s)) as [H _].
    by destruct (generate_synthetic_challenge (random_state s)).
Qed.

Lemma boot_ok (g : rng) : server_ok (boot g).
Proof.
  unfold boot, initialize_dataset.
  pose proof (load_audio_samples_ok 100
                (download_dataset SimpleDatasetLoader_init) g) as [H _].
  destruct (load_audio_samples 100 _ g) as [l g'].
  split; [done|]. intros cid r. cbn [challenges]. by rewrite lookup_empty.
Qed.

Lemma serve_ok (s : server) (req : request) :
  server_ok s → server_ok (serve s req).1.
Proof.
  intros [Hl Hs]. destruct req as [data ip now|u t1 t2|t1 t2];
    cbn [handle].
  - pose proof (verify_response_source s data ip now) as Hsrc.
    assert (store_ok (challenges (verify_response s data ip now).1)) as Hst.
    { intros k r' Hk.
      destruct (challenges s !! k) as [r|] eqn:Hr.
      - destruct (verify_response_row_le s data ip now k r Hr)
          as (r'' & Hk' & Hseq & _).
        rewrite Hk in Hk'. injection Hk' as <-. rewrite Hseq. by eapply Hs.
      - apply verify_response_rows with (data := data) (ip := ip) (now := now) in Hr.
        congruence. }
    destruct (verify_response s data ip now) as [s' v]. cbn [fst] in *.
    split; [by rewrite Hsrc | done].
  - pose proof (enhanced_generate_challenge_eq s u t1 t2) as H.
    cbv zeta in H.
    destruct (generated_challenge_ok s (default (PyBool true) u) Hl)
      as [Hl' Hc].
    assert (digit_sequence 3 6 (challenge_text_of
              (generated_challenge s (default (PyBool true) u)).1.1)) as Ht.
    { destruct (challenge_ok_text _ Hc) as [[_ ?]|[_ ?]]; [done|].
      eapply digit_sequence_weaken; [| |eassumption]; lia. }
    destruct (challenges s !! mint _ t1) eqn:Hid.
    + rewrite H. by split.
    + destruct H as (reply & -> & _). split; [done|].
      cbn [fst challenges with_source with_challenges].
      by apply store_ok_insert.
  - pose proof (alternative_challenge_eq s t1 t2) as H. cbv zeta in H.
    pose proof (choices_sequence 3 (random_state s)) as Ht.
    destruct (challenges s !! mint _ t1) eqn:Hid.
    + rewrite H. by split.
    + destruct H as (reply & -> & _). split; [done|].
      cbn [fst challenges with_source with_challenges].
      apply store_ok_insert; [done|].
      eapply digit_sequence_weaken; [| |exact Ht]; lia.
Qed.

Lemma reachable_ok (s : server) : reach s → server_ok s.
Proof. induction 1; [apply boot_ok | by apply serve_ok]. Qed.

(** A verdict is only ever given on a row that exists. *)
Lemma verify_response_verdict s data ip now success expected provided :
  (verify_response s data ip now).2 = Verdict success expected provided →
  ∃ cid r, vd_challenge_id data = Some cid ∧ challenges s !! cid = Some r
           ∧ expected = clean (sequence r).
Proof.
  destruct (rate_limited (challenge_attempts s) ip now) eqn:H.
  { by rewrite verify_response_limited. }
  destruct (vd_challenge_id data) as [cid|] eqn:Hid.
  2:{ by rewrite verify_response_missing by auto. }
  destruct (str_truthy cid) eqn:Hcid.
  2:{ destruct cid; [|done]. by rewrite verify_response_missing by auto. }
  destruct (challenges s !! cid) as [r|] eqn:Hrow.
  2:{ by rewrite (verify_response_unknown _ _ _ _ cid). }
  destruct (verify_response_found s data ip now cid r) as [-> _]; try done.
  intros [= _ <- _]. eauto.
Qed.

(** C3. A verify call that is admitted and finds the row of its id adds
    exactly one to that row's [attempts], whether or not the answer matches.
    For a challenge created with the answer "7042": a first admitted verify
    with "0000" is answered success false, expected "7042", provided "0000"
    and leaves attempts 1, not solved; a second admitted verify with "7042"
    is answered success true and leaves attempts 2, solved. *)
Theorem C3_attempt_counted (s : server) (data : verify_data) (ip : string)
    (now : Z) (cid : string) (r : challenge_row) :
  rate_limited (challenge_attempts s) ip now = false →
  vd_challenge_id data = Some cid → str_truthy cid = true →
  challenges s !! cid = Some r →
  (∃ r', challenges (verify_response s data ip now).1 !! cid = Some r'
         ∧ attempts r' = (attempts r + 1)%Z)
  ∧ ∀ s0 use_dataset now_id now_row s1 created ip1 now1 ip2 now2,
      generate s0 use_dataset now_id now_row = (s1, Returned created) →
      gr_sequence created = "7042" →
      let id := gr_challenge_id created in
      let first :=
        verify_response s1
          {| vd_challenge_id := Some id; vd_response := Some (PyStr "0000") |}
          ip1 now1 in
      let second :=
        verify_response first.1
          {| vd_challenge_id := Some id; vd_response := Some (PyStr "7042") |}
          ip2 now2 in
      rate_limited (challenge_attempts s1) ip1 now1 = false →
      rate_limited (challenge_attempts first.1) ip2 now2 = false →
      first.2 = Verdict false "7042" "0000"
      ∧ attempts <$> challenges first.1 !! id = Some 1%Z
      ∧ solved <$> challenges first.1 !! id = Some false
      ∧ second.2 = Verdict true "7042" "7042"
      ∧ attempts <$> challenges second.1 !! id = Some 2%Z
      ∧ solved <$> challenges second.1 !! id = Some true.
Proof.
  intros H Hid Hcid Hrow. split.
  { destruct (verify_response_found s data ip now cid r) as [_ ->]; try done.
    rewrite lookup_insert_eq. eauto. }
  intros s0 u t1 t2 s1 created ip1 now1 ip2 now2 Hgen Hseq id first second
    Hadm1 Hadm2.
  pose proof (enhanced_generate_challenge_eq s0 u t1 t2) as Heq.
  cbv zeta in Heq.
  destruct (challenges s0 !! mint _ t1) eqn:Hfresh; [congruence|].
  destruct Heq as (reply & Heq & Hrid & Hrseq & _).
  rewrite Heq in Hgen. injection Hgen as Hs1 Hcreated. subst created.
  assert (challenge_text_of
            (generated_challenge s0 (default (PyBool true) u)).1.1 = "7042")
    as Htext by congruence.
  rewrite Htext in *.
  set (row0 := {| sequence := "7042"; created_at := t2; attempts := 0;
                  solved := false;
                  challenge_type := challenge_type_of
                    (generated_challenge s0 (default (PyBool true) u)).1.1 |})
    in *.
  assert (str_truthy id = true) as Htruthy.
  { subst id. rewrite Hrid. apply mint_id_truthy. }
  assert (challenges s1 !! id = Some row0) as Hrow0.
  { subst s1 id. rewrite Hrid. cbn [challenges with_challenges].
    apply lookup_insert_eq. }
  destruct (verify_response_found s1
    {| vd_challenge_id := Some id; vd_response := Some (PyStr "0000") |}
    ip1 now1 id row0) as [Hv1 Ht1]; try done.
  fold first in Hv1, Ht1.
  assert (challenges first.1 !! id = Some (attempted false row0)) as Hrow1.
  { rewrite Ht1. apply lookup_insert_eq. }
  destruct (verify_response_found first.1
    {| vd_challenge_id := Some id; vd_response := Some (PyStr "7042") |}
    ip2 now2 id (attempted false row0)) as [Hv2 Ht2]; try done.
  fold second in Hv2, Ht2.
  rewrite Hv1, Hv2, Hrow1, Ht2, lookup_insert_eq. by repeat split.
Qed.

(** C4. Over any sequence of create and verify requests, a row that exists
    stays, keeps its answer, never loses attempts and never goes from
    solved back to unsolved; an admitted verify call on a solved row still
    adds one attempt and leaves it solved. *)
Theorem C4_attempts_and_solved_monotone (s : server) (rs : list request)
    (cid : string) (r : challenge_row) :
  challenges s !! cid = Some r →
  (∃ r', challenges (runs s rs) !! cid = Some r'
         ∧ (attempts r ≤ attempts r')%Z
         ∧ (solved r = true → solved r' = true)
         ∧ sequence r' = sequence r)
  ∧ ∀ data ip now,
      solved r = true →
      rate_limited (challenge_attempts s) ip now = false →
      vd_challenge_id data = Some cid → str_truthy cid = true →
      ∃ r', challenges (verify_response s data ip now).1 !! cid = Some r'
            ∧ attempts r' = (attempts r + 1)%Z ∧ solved r' = true.
Proof.
  intros Hrow. split.
  - destruct (run_row_le rs s cid r Hrow) as (r' & Hr' & Hseq & _ & _ & Ha & Hs).
    eauto.
  - intros data ip now Hsolved H Hid Hcid.
    destruct (verify_response_found s data ip now cid r) as [_ ->]; try done.
    rewrite lookup_insert_eq. eexists. split; [done|].
    unfold attempted. simpl. split; [done|]. by destruct (String.eqb _ _).
Qed.



(** C7. After either creation handler has returned, the row under the id it
    returned has attempts 0, solved false and, as its answer, the sequence
    that was generated; and the handler does return whenever the id it mints
    is not taken. *)
Theorem C7_created_rows_pending (s : server) :
  (∀ use_dataset now_id now_row s' created,
     generate s use_dataset now_id now_row = (s', Returned created) →
     challenges s' !! gr_challenge_id created
     = Some {| sequence := gr_sequence created; created_at := now_row;
               attempts := 0; solved := false;
               challenge_type := gr_challenge_type created |}
     ∧ select_sequence_attempts (gr_challenge_id created) (challenges s')
       = Some (gr_sequence created, 0%Z)
     ∧ gr_sequence created
       = challenge_text_of
           (generated_challenge s (default (PyBool true) use_dataset)).1.1)
  ∧ (∀ now_id now_row s' created,
       alternative s now_id now_row = (s', Returned created) →
       challenges s' !! ar_challenge_id created
       = Some {| sequence := ar_sequence created; created_at := now_row;
                 attempts := 0; solved := false;
                 challenge_type := "alternative" |}
       ∧ select_sequence_attempts (ar_challenge_id created) (challenges s')
         = Some (ar_sequence created, 0%Z)
       ∧ ar_sequence created
         = str_join "" (choices "0123456789" 3 (random_state s)).1)
  ∧ (∀ use_dataset now_id now_row,
       challenges s !! mint
         (challenge_text_of
            (generated_challenge s (default (PyBool true) use_dataset)).1.1)
         now_id = None →
       ∃ created, (generate s use_dataset now_id now_row).2 = Returned created)
  ∧ (∀ now_id now_row,
       challenges s !! mint
         (str_join "" (choices "0123456789" 3 (random_state s)).1) now_id
       = None →
       ∃ created, (alternative s now_id now_row).2 = Returned created).
Proof.
  split; [|split; [|split]].
  - intros use_dataset now_id now_row s' created Hgen.
    destruct (generate_returned _ _ _ _ _ _ Hgen) as (Hid & Hseq & Hty & Htbl).
    unfold select_sequence_attempts.
    rewrite Htbl, Hid, Hseq, Hty, lookup_insert_eq. done.
  - intros now_id now_row s' created Hgen.
    destruct (alternative_returned _ _ _ _ _ Hgen) as (Hid & Hseq & Htbl).
    unfold select_sequence_attempts.
    rewrite Htbl, Hid, Hseq, lookup_insert_eq. done.
  - intros use_dataset now_id now_row Hfresh.
    pose proof (enhanced_generate_challenge_eq s use_dataset now_id now_row)
      as Heq. cbv zeta in Heq. rewrite Hfresh in Heq.
    destruct Heq as (reply & -> & _). eauto.
  - intros now_id now_row Hfresh.
    pose proof (alternative_challenge_eq s now_id now_row) as Heq.
    cbv zeta in Heq. rewrite Hfresh in Heq.
    destruct Heq as (reply & -> & _). eauto.
Qed.

(** C8, as the code has it. An admitted verify call without a challenge id
    (absent, null or empty) is answered with the missing-id failure and
    changes no challenge row, but the client's [last_attempt_at] has been
    set to [now] by then. A response that is not a string is not refused:
    it is turned into text by [str] and then cleaned and compared like any
    response, and the attempt is counted. *)
Theorem C8_missing_id_and_coerced_response (s : server) (data : verify_data)
    (ip : string) (now : Z) :
  rate_limited (challenge_attempts s) ip now = false →
  let s' := (verify_response s data ip now).1 in
  let v := (verify_response s data ip now).2 in
  (vd_challenge_id data = None ∨ vd_challenge_id data = Some "" →
   v = Missing_challenge_id
   ∧ json_get "success" (verify_reply_json v) = Some (PyBool false)
   ∧ json_get "error" (verify_reply_json v) = Some (PyStr "Missing challenge_id")
   ∧ challenges s' = challenges s
   ∧ challenge_attempts s' !! ip = Some now)
  ∧ (∀ cid r response,
       vd_challenge_id data = Some cid → str_truthy cid = true →
       challenges s !! cid = Some r →
       vd_response data = Some response →
       let provided := digits_only (py_str response) in
       let expected := digits_only (sequence r) in
       v = Verdict (String.eqb provided expected) expected provided
       ∧ attempts <$> challenges s' !! cid = Some (attempts r + 1)%Z
       ∧ challenge_attempts s' !! ip = Some now).
Proof.
  intros H s' v. split.
  - intros Hmissing. subst s' v.
    rewrite verify_response_missing by done. simpl.
    repeat split; try done. apply lookup_insert_eq.
  - intros cid r response Hid Hcid Hrow Hresp provided expected.
    destruct (verify_response_found s data ip now cid r) as [Hv Ht];
      try done.
    rewrite Hresp, !clean_digits_only in Hv, Ht. cbn [default] in Hv, Ht.
    fold provided expected in Hv, Ht. subst s' v.
    rewrite Hv, Ht, lookup_insert_eq, verify_response_stamp by done.
    repeat split. apply lookup_insert_eq.
Qed.

(** C9. Every label the dataset loader generates is a string of three to six
    ASCII digits; the synthetic generator gives four digits; and whatever
    sequence a creation request on a running server returns is a string of
    ASCII digits, three to six long for kind dataset_audio, four long for
    kind synthetic and three long for the alternative challenge. *)
Theorem C9_sequence_shapes :
  (∀ n l g t, t ∈ text_labels (load_audio_samples n l g).1 →
     str_all ascii_digit t = true ∧ 3 ≤ String.length t ≤ 6)
  ∧ (∀ g, str_all ascii_digit
            (challenge_text_of (generate_synthetic_challenge g).1) = true
          ∧ String.length
              (challenge_text_of (generate_synthetic_challenge g).1) = 4)
  ∧ (∀ s req kind text,
       reach s → issued (serve s req).2 = Some (kind, text) →
       str_all ascii_digit text = true
       ∧ ((kind = "dataset_audio" ∧ 3 ≤ String.length text ≤ 6)
          ∨ (kind = "synthetic" ∧ String.length text = 4)
          ∨ (kind = "alternative" ∧ String.length text = 3))).
Proof.
  split; [|split].
  - intros n l g t Ht.
    destruct (load_audio_samples_ok n l g) as [[Hf _] _].
    by apply (proj1 (Forall_forall _ _) Hf).
  - intros g. pose proof (generate_synthetic_challenge_ok g) as [Hc Hty].
    destruct (generate_synthetic_challenge g).1; [done|].
    destruct Hc as [? ?]. simpl. split; [done | lia].
  - intros s req kind text Hreach.
    destruct (reachable_ok s Hreach) as [Hl _].
    destruct req as [data ip now|u t1 t2|t1 t2]; cbn [handle].
    + by destruct (verify_response s data ip now).
    + pose proof (enhanced_generate_challenge_eq s u t1 t2) as H.
      cbv zeta in H.
      destruct (generated_challenge_ok s (default (PyBool true) u) Hl)
        as [_ Hc].
      destruct (challenges s !! mint _ t1).
      * by rewrite H.
      * destruct H as (reply & -> & _ & Hseq & Hty & _).
        cbn [issued snd]. rewrite Hseq, Hty. intros [= <- <-].
        destruct (challenge_ok_text _ Hc) as [[-> [? ?]]|[-> [? ?]]].
        -- split; [done|]. by left.
        -- split; [done|]. right; left. split; [done | lia].
    + pose proof (alternative_challenge_eq s t1 t2) as H. cbv zeta in H.
      pose proof (choices_sequence 3 (random_state s)) as [Hd ?].
      destruct (challenges s !! mint _ t1).
      * by rewrite H.
      * destruct H as (reply & -> & _ & Hseq).
        cbn [issued snd]. intros Heq.
        assert (kind = "alternative" ∧ text = ar_sequence reply) as [-> ->]
          by (split; congruence).
        rewrite Hseq. split; [done|]. right; right. split; [done | lia].
Qed.

(** C10. On a server started on an empty table every stored answer consists
    of ASCII digits only, cleaning it gives it back unchanged, and the
    [expected] field of every verdict is the stored answer of the row the
    call named. *)
Theorem C10_expected_is_stored_answer (s : server) :
  reach s →
  (∀ cid r, challenges s !! cid = Some r →
     str_all ascii_digit (sequence r) = true
     ∧ clean (sequence r) = sequence r)
  ∧ (∀ data ip now success expected provided,
       (verify_response s data ip now).2 = Verdict success expected provided →
       ∃ cid r, vd_challenge_id data = Some cid
                ∧ challenges s !! cid = Some r
                ∧ expected = sequence r).
Proof.
  intros Hreach. destruct (reachable_ok s Hreach) as [_ Hst].
  assert (∀ cid r, challenges s !! cid = Some r →
            str_all ascii_digit (sequence r) = true
            ∧ clean (sequence r) = sequence r) as Hclean.
  { intros cid r Hrow. destruct (Hst cid r Hrow) as [Hd _].
    split; [done|]. rewrite clean_digits_only. by apply digits_only_id. }
  split; [done|].
  intros data ip now success expected provided Hv.
  destruct (verify_response_verdict _ _ _ _ _ _ _ Hv) as (cid & r & ? & Hrow & ->).
  exists cid, r. repeat split; try done. by eapply Hclean.
Qed.

End Runs.

(* ===================================================================== *)
(** ** The theorems at concrete inputs *)
(* ===================================================================== *)

Lemma sample_md5_length (s : string) : String.length (Sample.md5 s) = 32.
Proof.
  unfold Sample.md5. rewrite length_str_take, length_append.
  change (String.length "0123456789abcdef0123456789abcdef") with 32. lia.
Qed.

Lemma C1_rate_limit_gate_witness :
  (verify_response Sample.one_pending_seen
     (Sample.body "c1" (PyStr "7042")) "10.0.0.1" 11500000).2 = Rate_limited
  ∧ challenge_attempts
      (verify_response Sample.one_pending_seen
         (Sample.body "c1" (PyStr "7042")) "10.0.0.1" 12000000).1
    !! "10.0.0.1" = Some 12000000%Z.
Proof.
  split.
  - apply (C1_rate_limit_gate Sample.one_pending_seen
             (Sample.body "c1" (PyStr "7042")) "10.0.0.1" 11500000)
      with (last := 10000000%Z); [reflexivity | reflexivity].
  - apply (C1_rate_limit_gate Sample.one_pending_seen
             (Sample.body "c1" (PyStr "7042")) "10.0.0.1" 12000000).
    right. exists 10000000%Z. split; [reflexivity | by vm_compute].
Defined.

Lemma C2_cleaned_exact_match_witness :
  (verify_response Sample.one_1234
     (Sample.body "c2" (PyStr "1-2 3a4")) "10.0.0.1" 0).2
  = Verdict true "1234" "1234".
Proof.
  apply (C2_cleaned_exact_match Sample.one_1234
           (Sample.body "c2" (PyStr "1-2 3a4")) "10.0.0.1" 0 "c2"
           (Sample.row "1234" 0 false)); reflexivity.
Defined.

Lemma C3_attempt_counted_witness :
  ∃ r', challenges
          (verify_response Sample.one_pending
             (Sample.body "c1" (PyStr "0000")) "10.0.0.1" 0).1 !! "c1"
        = Some r'
        ∧ attempts r' = 1%Z.
Proof.
  apply (C3_attempt_counted Sample.md5 Sample.dt sample_md5_length
           Sample.one_pending (Sample.body "c1" (PyStr "0000")) "10.0.0.1" 0
           "c1" (Sample.row "7042" 0 false)); reflexivity.
Defined.

Lemma C4_attempts_and_solved_monotone_witness :
  ∃ r', challenges
          (run Sample.md5 Sample.dt Sample.one_solved Sample.visits) !! "c1"
        = Some r'
        ∧ (3 ≤ attempts r')%Z
        ∧ (true = true → solved r' = true)
        ∧ sequence r' = "7042".
Proof.
  apply (C4_attempts_and_solved_monotone Sample.md5 Sample.dt
           Sample.one_solved Sample.visits "c1" (Sample.row "7042" 3 true)).
  reflexivity.
Defined.

Lemma C5_unknown_id_untouched_witness :
  (verify_response Sample.one_pending
     (Sample.body "nope" (PyStr "7042")) "10.0.0.1" 0).2 = Invalid_challenge.
Proof.
  apply (C5_unknown_id_untouched Sample.one_pending
           (Sample.body "nope" (PyStr "7042")) "10.0.0.1" 0 "nope");
    reflexivity.
Defined.


Lemma C7_created_rows_pending_witness :
  challenges Sample.after_generate !! "704250123456789a"
  = Some {| sequence := "7042"; created_at := 6; attempts := 0;
            solved := false; challenge_type := "synthetic" |}.
Proof.
  destruct (C7_created_rows_pending Sample.md5 Sample.dt Sample.empty_server)
    as [Hgen _].
  destruct (Hgen None 5%Z 6%Z Sample.after_generate Sample.generate_reply_7042)
    as [Hrow _]; [reflexivity | exact Hrow].
Defined.

Lemma C8_missing_id_and_coerced_response_witness :
  (verify_response Sample.one_pending
     {| vd_challenge_id := None; vd_response := Some (PyStr "7042") |}
     "10.0.0.1" 0).2 = Missing_challenge_id.
Proof.
  apply (C8_missing_id_and_coerced_response Sample.one_pending
           {| vd_challenge_id := None; vd_response := Some (PyStr "7042") |}
           "10.0.0.1" 0); [reflexivity | by left].
Defined.

Lemma C9_sequence_shapes_witness :
  str_all ascii_digit "307" = true
  ∧ ("dataset_audio" = "dataset_audio" ∧ 3 ≤ String.length "307" ≤ 6
     ∨ "dataset_audio" = "synthetic" ∧ String.length "307" = 4
     ∨ "dataset_audio" = "alternative" ∧ String.length "307" = 3).
Proof.
  destruct (C9_sequence_shapes Sample.md5 Sample.dt) as (_ & _ & Hreach).
  apply (Hreach (boot Sample.draws) (Generate None 5 6)
           "dataset_audio" "307");
    [apply reachable_boot | by vm_compute].
Defined.

Lemma C10_expected_is_stored_answer_witness :
  str_all ascii_digit "307" = true ∧ clean "307" = "307".
Proof.
  destruct (C10_expected_is_stored_answer Sample.md5 Sample.dt
              (handle Sample.md5 Sample.dt (boot Sample.draws)
                 (Generate None 5 6)).1)
    as [Hrows _]; [apply reachable_handle, reachable_boot|].
  apply (Hrows "30750123456789ab"
           {| sequence := "307"; created_at := 6; attempts := 0;
              solved := false; challenge_type := "dataset_audio" |}).
  by vm_compute.
Defined.

(** The two seconds run from the last admitted call: a call refused at
    1.5 s does not move the record, so the call at 3 s is admitted. *)
Example window_runs_from_last_admitted_call :
  let wrong := Sample.body "c1" (PyStr "0000") in
  let a := verify_response Sample.one_pending wrong "10.0.0.1" 0 in
  let b := verify_response a.1 wrong "10.0.0.1" 1500000 in
  let c := verify_response b.1 wrong "10.0.0.1" 3000000 in
  a.2 = Verdict false "7042" "0000"
  ∧ b.2 = Rate_limited
  ∧ challenge_attempts b.1 !! "10.0.0.1" = Some 0%Z
  ∧ c.2 = Verdict false "7042" "0000"
  ∧ challenges c.1 !! "c1" = Some (Sample.row "7042" 2 false).
Proof. by vm_compute. Qed.

(** [str] of the scalar values, and the cleaning of what it gives. *)
Example py_str_values :
  py_str (PyInt 7042) = "7042" ∧ py_str (PyInt (-15)) = "-15"
  ∧ py_str PyNone = "None" ∧ py_str (PyBool true) = "True"
  ∧ clean (py_str (PyInt (-15))) = "15" ∧ clean (py_str PyNone) = "".
Proof. by vm_compute. Qed.

(** The first three samples the loader generates from [Sample.draws]. *)
Example load_three_samples :
  (load_audio_samples 3 SimpleDatasetLoader_init Sample.draws).1
  = {| audio_files := ["/simulated/audio/audio_000.wav";
                       "/simulated/audio/audio_001.wav";
                       "/simulated/audio/audio_002.wav"];
       text_labels := ["074185"; "963"; "741"];
       loader_use_dataset := false |}.
Proof. by vm_compute. Qed.

(** Outside the running server: on a table edited by hand to hold the answer
    "abcd", which no creation route stores, the comparison is still plain
    equality of the cleaned strings, so a response without a digit matches. *)
Example row_without_digits_on_edited_table :
  let out :=
    verify_response Sample.alpha_pending
      (Sample.body "c3" (PyStr "")) "10.0.0.1" 0 in
  clean "abcd" = ""
  ∧ out.2 = Verdict true "" ""
  ∧ challenges out.1 !! "c3" = Some (Sample.row "abcd" 1 true).
Proof. by vm_compute. Qed.

(** C8 as stated fails twice. A request without challenge_id is answered
    with the missing-id failure only after the client's last attempt has
    been recorded; and the response 7042 sent as a number is not refused but
    verified, counted as an attempt and accepted. *)
Lemma C8_counterexample :
  let no_id :=
    verify_response Sample.one_pending
      {| vd_challenge_id := None; vd_response := Some (PyStr "7042") |}
      "10.0.0.1" 0 in
  let number :=
    verify_response Sample.one_pending
      (Sample.body "c1" (PyInt 7042)) "10.0.0.1" 0 in
  (no_id.2 = Missing_challenge_id
   ∧ challenge_attempts Sample.one_pending !! "10.0.0.1" = None
   ∧ challenge_attempts no_id.1 !! "10.0.0.1" = Some 0%Z)
  ∧ (number.2 = Verdict true "7042" "7042"
     ∧ challenges Sample.one_pending !! "c1"
       = Some (Sample.row "7042" 0 false)
     ∧ challenges number.1 !! "c1" = Some (Sample.row "7042" 1 true)).
Proof. by vm_compute. Qed.

(* ===================================================================== *)
(** ** Further properties of the verify path *)
(* ===================================================================== *)

Lemma digits_only_app (a b : string) :
  digits_only (a +:+ b) = digits_only a +:+ digits_only b.
Proof.
  induction a as [|c a IH]; [done|].
  rewrite append_cons. cbn [digits_only].
  destruct (char_isdigit c); [by rewrite append_cons, IH | done].
Qed.

Lemma digits_only_isdigit (s : string) :
  str_all char_isdigit (digits_only s) = true.
Proof.
  induction s as [|c s IH]; [done|]. cbn [digits_only].
  destruct (char_isdigit c) eqn:Hc; [|done]. cbn [str_all]. by rewrite Hc.
Qed.

Lemma digits_only_fixed (s : string) :
  str_all char_isdigit s = true → digits_only s = s.
Proof.
  induction s as [|c s IH]; [done|]. cbn [str_all digits_only].
  intros [-> Hs]%andb_true_iff. by rewrite IH.
Qed.

Lemma length_digits_only (s : string) :
  String.length (digits_only s) ≤ String.length s.
Proof.
  induction s as [|c s IH]; [done|]. cbn [digits_only].
  destruct (char_isdigit c); simpl; lia.
Qed.

(** X1. Cleaning is a projection onto the strings of digits that respects
    concatenation: it acts piece by piece, cleaning twice is cleaning once,
    what it returns passes [str.isdigit] character by character and is no
    longer than what it was given. *)
Theorem clean_algebra (a b : string) :
  clean (a +:+ b) = clean a +:+ clean b
  ∧ clean (clean a) = clean a
  ∧ str_all char_isdigit (clean a) = true
  ∧ String.length (clean a) ≤ String.length a.
Proof.
  rewrite !clean_digits_only. repeat split.
  - apply digits_only_app.
  - apply digits_only_fixed, digits_only_isdigit.
  - apply digits_only_isdigit.
  - apply length_digits_only.
Qed.

(** Where an admitted call leaves the server: the client's record set to
    [now], some table, and nothing else changed. *)
Lemma verify_response_shape s data ip now :
  rate_limited (challenge_attempts s) ip now = false →
  (verify_response s data ip now).1
  = with_challenges (challenges (verify_response s data ip now).1)
      (with_challenge_attempts (<[ip := now]> (challenge_attempts s)) s).
Proof.
  intros H. unfold verify_response. rewrite H.
  destruct (vd_challenge_id data) as [cid|]; [|done].
  destruct (str_truthy cid); [|done]. simpl.
  destruct (select_sequence_attempts _ _) as [[? ?]|]; [|done].
  by destruct (String.eqb _ _).
Qed.

(** The verdict and the state after a verify call depend on the response
    only through its digits: two requests for the same id whose responses
    clean to the same string are answered alike and leave the same state. *)
Lemma verify_response_reads_digits_only (s : server)
    (data1 data2 : verify_data) (ip : string) (now : Z) :
  vd_challenge_id data1 = vd_challenge_id data2 →
  clean (py_str (default (PyStr "") (vd_response data1)))
  = clean (py_str (default (PyStr "") (vd_response data2))) →
  verify_response s data1 ip now = verify_response s data2 ip now.
Proof.
  intros Hid Hclean. unfold verify_response. by rewrite Hid, Hclean.
Qed.

(** X3. A verify call touches one client and one challenge: the records of the
    other clients, the rows under every other id, the loader, the generator
    flag and the state of [random] are as before. *)
Theorem verify_response_isolation (s : server) (data : verify_data)
    (ip : string) (now : Z) :
  let s' := (verify_response s data ip now).1 in
  (∀ ip', ip' ≠ ip →
     challenge_attempts s' !! ip' = challenge_attempts s !! ip')
  ∧ (∀ k, vd_challenge_id data ≠ Some k →
       challenges s' !! k = challenges s !! k)
  ∧ dataset_loader s' = dataset_loader s
  ∧ generator_use_dataset s' = generator_use_dataset s
  ∧ dataset_initialized s' = dataset_initialized s
  ∧ random_state s' = random_state s.
Proof.
  intros s'. subst s'.
  destruct (rate_limited (challenge_attempts s) ip now) eqn:H.
  { by rewrite verify_response_limited. }
  split; [|split].
  - intros ip' Hne. rewrite verify_response_stamp by done.
    by rewrite lookup_insert_ne.
  - intros k Hk.
    destruct (vd_challenge_id data) as [cid|] eqn:Hid.
    2:{ by rewrite verify_response_missing by auto. }
    destruct (str_truthy cid) eqn:Hcid.
    2:{ destruct cid; [|done]. by rewrite verify_response_missing by auto. }
    destruct (challenges s !! cid) as [r|] eqn:Hrow.
    2:{ by rewrite (verify_response_unknown _ _ _ _ cid). }
    destruct (verify_response_found s data ip now cid r) as [_ ->];
      try done.
    rewrite lookup_insert_ne; [done | congruence].
  - by rewrite (verify_response_shape s data ip now H).
Qed.

(** One verify call moves a client's record forward by two seconds or more,
    or not at all. *)
Lemma verify_response_forward s data ip now ip0 t :
  challenge_attempts s !! ip0 = Some t →
  ∃ t', challenge_attempts (verify_response s data ip now).1 !! ip0 = Some t'
        ∧ (t' = t ∨ (t + timedelta_seconds 2 ≤ t')%Z).
Proof.
  intros Ht.
  destruct (rate_limited (challenge_attempts s) ip now) eqn:H.
  { rewrite verify_response_limited by done. eauto. }
  rewrite verify_response_stamp by done.
  destruct (decide (ip = ip0)) as [->|Hne].
  - rewrite lookup_insert_eq. exists now. split; [done|]. right.
    unfold rate_limited in H. rewrite Ht in H. apply Z.ltb_ge in H. lia.
  - rewrite lookup_insert_ne by done. eauto.
Qed.

Lemma digits_only_no_digit (s : string) :
  str_all (λ c, negb (char_isdigit c)) s = true → digits_only s = "".
Proof.
  induction s as [|c s IH]; [done|]. cbn [str_all digits_only].
  intros [Hc Hs]%andb_true_iff. apply negb_true_iff in Hc. rewrite Hc. auto.
Qed.

(** X2. Text without a digit, put anywhere into a response, changes neither the
    reply nor the state the call leaves: separators, spaces and letters are
    ignored wherever they stand. *)
Theorem verify_response_ignores_non_digits (s : server)
    (id : option string) (a junk b : string) (ip : string) (now : Z) :
  str_all (λ c, negb (char_isdigit c)) junk = true →
  verify_response s
    {| vd_challenge_id := id; vd_response := Some (PyStr (a +:+ junk +:+ b)) |}
    ip now
  = verify_response s
      {| vd_challenge_id := id; vd_response := Some (PyStr (a +:+ b)) |}
      ip now.
Proof.
  intros Hjunk. apply verify_response_reads_digits_only; [done|].
  cbn [vd_response default from_option Datatypes.id py_str].
  rewrite !clean_digits_only, !digits_only_app.
  by rewrite (digits_only_no_digit junk Hjunk), append_empty_l.
Qed.

(* ===================================================================== *)
(** ** Counting rows *)
(* ===================================================================== *)

Section Counting.

Context (P : string * challenge_row → Prop) `{!∀ kv, Decision (P kv)}.

(** The number of rows that satisfy [P] after a row is added under a free
    key. *)
Lemma size_filter_insert_fresh (m : gmap string challenge_row) i x :
  m !! i = None →
  size (filter P (<[i := x]> m))
  = size (filter P m) + (if decide (P (i, x)) then 1 else 0).
Proof.
  intros Hi. case_decide as HP.
  - rewrite map_filter_insert_True by done.
    rewrite map_size_insert_None; [lia|].
    apply map_lookup_filter_None_2. by left.
  - rewrite map_filter_insert_False by done.
    rewrite delete_id by done. lia.
Qed.

(** The same when the row under a key is replaced. *)
Lemma size_filter_insert_update (m : gmap string challenge_row) i x y :
  m !! i = Some y →
  size (filter P (<[i := x]> m)) + (if decide (P (i, y)) then 1 else 0)
  = size (filter P m) + (if decide (P (i, x)) then 1 else 0).
Proof.
  intros Hi.
  rewrite <- (insert_delete_eq m i x).
  rewrite <- (insert_delete_id m i y Hi) at 2.
  rewrite !size_filter_insert_fresh by apply lookup_delete_eq. lia.
Qed.

End Counting.

Lemma count_challenges_update (m : gmap string challenge_row) i x y :
  m !! i = Some y → count_challenges (<[i := x]> m) = count_challenges m.
Proof.
  intros Hi. unfold count_challenges.
  rewrite map_size_insert. by rewrite Hi.
Qed.

Lemma count_challenges_fresh (m : gmap string challenge_row) i x :
  m !! i = None → count_challenges (<[i := x]> m) = S (count_challenges m).
Proof. apply map_size_insert_None. Qed.

(** X5. The three figures of [/api/status] are consistent: no more challenges
    are reported solved, or taken from the dataset, than were generated. *)
Theorem status_counts_bounded (s : server) (timestamp : string) :
  sr_challenges_solved (status s timestamp)
    ≤ sr_challenges_generated (status s timestamp)
  ∧ sr_dataset_challenges_used (status s timestamp)
    ≤ sr_challenges_generated (status s timestamp).
Proof.
  unfold status, count_solved, count_dataset, count_challenges. simpl.
  split; apply map_size_filter.
Qed.

(* ===================================================================== *)
(** ** What one request does to the table *)
(* ===================================================================== *)

(** The table after a verify call: the old one, or the old one with the row
    the call named replaced by its attempted version. *)
Lemma verify_response_table s data ip now :
  challenges (verify_response s data ip now).1 = challenges s
  ∧ (∀ e p, (verify_response s data ip now).2 ≠ Verdict true e p)
  ∨ ∃ cid r success e p,
      vd_challenge_id data = Some cid
      ∧ challenges s !! cid = Some r
      ∧ (verify_response s data ip now).2 = Verdict success e p
      ∧ challenges (verify_response s data ip now).1
        = <[cid := attempted success r]> (challenges s).
Proof.
  destruct (rate_limited (challenge_attempts s) ip now) eqn:H.
  { left. by rewrite verify_response_limited. }
  destruct (vd_challenge_id data) as [cid|] eqn:Hid.
  2:{ left. by rewrite verify_response_missing by auto. }
  destruct (str_truthy cid) eqn:Hcid.
  2:{ left. destruct cid; [|done]. by rewrite verify_response_missing by auto. }
  destruct (challenges s !! cid) as [r|] eqn:Hrow.
  2:{ left. by rewrite (verify_response_unknown _ _ _ _ cid). }
  right. destruct (verify_response_found s data ip now cid r) as [Hv Ht];
    try done.
  by eexists cid, r, _, _, _.
Qed.

Section More.

Variable md5_hexdigest : string → string.
Variable datetime_str : Z → string.

(** A digest is 32 hexadecimal characters. *)
Hypothesis md5_hexdigest_length :
  ∀ s, String.length (md5_hexdigest s) = 32.

Local Abbreviation mint' := (mint_id md5_hexdigest datetime_str).
Local Abbreviation generate' :=
  (enhanced_generate_challenge md5_hexdigest datetime_str).
Local Abbreviation alternative' :=
  (alternative_challenge md5_hexdigest datetime_str).
Local Abbreviation serve' := (handle md5_hexdigest datetime_str).
Local Abbreviation runs' := (run md5_hexdigest datetime_str).
Local Abbreviation reach' := (reachable md5_hexdigest datetime_str).

Lemma handle_verify s data ip now :
  serve' s (Verify data ip now)
  = ((verify_response s data ip now).1,
     Verify_reply (verify_response s data ip now).2).
Proof. cbn [handle]. by destruct (verify_response s data ip now). Qed.

Lemma handle_generate s u t1 t2 :
  serve' s (Generate u t1 t2)
  = ((generate' s u t1 t2).1, Generate_reply (generate' s u t1 t2).2).
Proof. cbn [handle]. by destruct (generate' s u t1 t2). Qed.

Lemma handle_alternative s t1 t2 :
  serve' s (Alternative t1 t2)
  = ((alternative' s t1 t2).1, Alternative_reply (alternative' s t1 t2).2).
Proof. cbn [handle]. by destruct (alternative' s t1 t2). Qed.

(** A creation request leaves the table alone and raises, or adds one
    pending row under a key that was free and returns its kind and answer. *)
Lemma creation_table s req :
  (∀ data ip now, req ≠ Verify data ip now) →
  (challenges (serve' s req).1 = challenges s
   ∧ issued (serve' s req).2 = None)
  ∨ ∃ id fresh,
      challenges s !! id = None
      ∧ attempts fresh = 0%Z ∧ solved fresh = false
      ∧ issued (serve' s req).2
        = Some (challenge_type fresh, sequence fresh)
      ∧ challenges (serve' s req).1 = <[id := fresh]> (challenges s).
Proof.
  intros Hreq. destruct req as [data ip now|u t1 t2|t1 t2].
  - by destruct (Hreq data ip now).
  - rewrite handle_generate.
    pose proof (enhanced_generate_challenge_eq md5_hexdigest datetime_str
                  s u t1 t2) as H. cbv zeta in H.
    destruct (challenges s !! mint' _ t1) eqn:Hid.
    + left. by rewrite H.
    + right. destruct H as (reply & -> & _ & Hseq & Hty & _).
      exists (mint' (challenge_text_of
                (generated_challenge s (default (PyBool true) u)).1.1) t1),
        {| sequence := challenge_text_of
             (generated_challenge s (default (PyBool true) u)).1.1;
           created_at := t2; attempts := 0; solved := false;
           challenge_type := challenge_type_of
             (generated_challenge s (default (PyBool true) u)).1.1 |}.
      cbn [fst snd issued challenges with_challenges attempts solved
           challenge_type sequence].
      by rewrite Hseq, Hty.
  - rewrite handle_alternative.
    pose proof (alternative_challenge_eq md5_hexdigest datetime_str
                  s t1 t2) as H. cbv zeta in H.
    destruct (challenges s !! mint' _ t1) eqn:Hid.
    + left. by rewrite H.
    + right. destruct H as (reply & -> & _ & Hseq).
      exists (mint' (str_join "" (choices "0123456789" 3 (random_state s)).1)
                t1),
        {| sequence := str_join "" (choices "0123456789" 3 (random_state s)).1;
           created_at := t2; attempts := 0; solved := false;
           challenge_type := "alternative" |}.
      cbn [fst snd issued challenges with_challenges attempts solved
           challenge_type sequence].
      by rewrite Hseq.
Qed.

(** The creation handlers leave the rate limiter's records alone. *)
Lemma creation_challenge_attempts s req :
  (∀ data ip now, req ≠ Verify data ip now) →
  challenge_attempts (serve' s req).1 = challenge_attempts s.
Proof.
  intros Hreq. destruct req as [data ip now|u t1 t2|t1 t2].
  - by destruct (Hreq data ip now).
  - rewrite handle_generate.
    pose proof (enhanced_generate_challenge_eq md5_hexdigest datetime_str
                  s u t1 t2) as H. cbv zeta in H.
    destruct (challenges s !! mint' _ t1).
    + by rewrite H.
    + by destruct H as (reply & -> & _).
  - rewrite handle_alternative.
    pose proof (alternative_challenge_eq md5_hexdigest datetime_str
                  s t1 t2) as H. cbv zeta in H.
    destruct (challenges s !! mint' _ t1).
    + by rewrite H.
    + by destruct H as (reply & -> & _).
Qed.

(** X4. Over any sequence of requests a client's record in [challenge_attempts]
    is never dropped and never moves back: it is the time it was, or at
    least two seconds later. *)
Theorem last_attempt_only_moves_forward (s : server) (rs : list request)
    (ip : string) (t : Z) :
  challenge_attempts s !! ip = Some t →
  ∃ t', challenge_attempts (runs' s rs) !! ip = Some t'
        ∧ (t' = t ∨ (t + 2000000 ≤ t')%Z).
Proof.
  revert s t. induction rs as [|req rs IH]; intros s t Ht; [by eauto|].
  assert (∃ t1, challenge_attempts (serve' s req).1 !! ip = Some t1
                ∧ (t1 = t ∨ (t + 2000000 ≤ t1)%Z)) as (t1 & Ht1 & Hle1).
  { destruct req as [data ip0 now|u t1 t2|t1 t2].
    - rewrite handle_verify. cbn [fst].
      by apply verify_response_forward.
    - rewrite creation_challenge_attempts by done. eauto.
    - rewrite creation_challenge_attempts by done. eauto. }
  destruct (IH _ _ Ht1) as (t' & Ht' & Hle').
  exists t'. split; [exact Ht'|]. lia.
Qed.

(** The three counts after the row under [cid] has been attempted. *)
Lemma attempted_counts (tbl : gmap string challenge_row) cid r success :
  tbl !! cid = Some r →
  count_challenges (<[cid := attempted success r]> tbl) = count_challenges tbl
  ∧ count_dataset (<[cid := attempted success r]> tbl) = count_dataset tbl
  ∧ count_solved (<[cid := attempted success r]> tbl)
    = count_solved tbl + (if success then if solved r then 0 else 1 else 0).
Proof.
  intros Hrow. split; [by eapply count_challenges_update|]. split.
  - unfold count_dataset.
    pose proof (size_filter_insert_update
      (λ kv : string * challenge_row, challenge_type kv.2 = "dataset_audio")
      tbl cid (attempted success r) r Hrow) as H.
    cbn [snd attempted challenge_type] in H.
    destruct (decide (challenge_type r = "dataset_audio")); lia.
  - unfold count_solved.
    pose proof (size_filter_insert_update
      (λ kv : string * challenge_row, solved kv.2 = true)
      tbl cid (attempted success r) r Hrow) as H.
    cbn [snd attempted solved] in H.
    destruct success, (solved r); simpl in H;
      repeat case_decide; try done; lia.
Qed.

(** The three counts after a pending row has been added under a free key. *)
Lemma fresh_counts (tbl : gmap string challenge_row) id fresh :
  tbl !! id = None → solved fresh = false →
  count_challenges (<[id := fresh]> tbl) = S (count_challenges tbl)
  ∧ count_solved (<[id := fresh]> tbl) = count_solved tbl
  ∧ count_dataset (<[id := fresh]> tbl)
    = count_dataset tbl
      + (if decide (challenge_type fresh = "dataset_audio") then 1 else 0).
Proof.
  intros Hid Hs. split; [by apply count_challenges_fresh|].
  unfold count_solved, count_dataset.
  rewrite !size_filter_insert_fresh by done. cbn [snd].
  rewrite Hs. rewrite decide_False by done. split; [lia | done].
Qed.

(** One request lowers none of the three counts. *)
Lemma handle_counts_le s req :
  count_challenges (challenges s)
    ≤ count_challenges (challenges (serve' s req).1)
  ∧ count_solved (challenges s) ≤ count_solved (challenges (serve' s req).1)
  ∧ count_dataset (challenges s)
    ≤ count_dataset (challenges (serve' s req).1).
Proof.
  destruct req as [data ip now|u t1 t2|t1 t2].
  - rewrite handle_verify. cbn [fst].
    destruct (verify_response_table s data ip now)
      as [[-> _]|(cid & r & success & e & p & _ & Hrow & _ & ->)]; [done|].
    destruct (attempted_counts (challenges s) cid r success Hrow)
      as (-> & -> & ->). lia.
  - destruct (creation_table s (Generate u t1 t2))
      as [[-> _]|(id & fresh & Hid & _ & Hs & _ & ->)]; [done | done |].
    destruct (fresh_counts (challenges s) id fresh Hid Hs) as (-> & -> & ->).
    lia.
  - destruct (creation_table s (Alternative t1 t2))
      as [[-> _]|(id & fresh & Hid & _ & Hs & _ & ->)]; [done | done |].
    destruct (fresh_counts (challenges s) id fresh Hid Hs) as (-> & -> & ->).
    lia.
Qed.

(** X6. What a verify call does to the figures of [/api/status]: the number of
    challenges generated and the number taken from the dataset stay; the
    number solved goes up by one when the call is answered success true on
    a row that was not solved, and stays otherwise. *)
Theorem status_after_verify (s : server) (data : verify_data) (ip : string)
    (now : Z) (t t' : string) :
  let before := status s t in
  let after := status (verify_response s data ip now).1 t' in
  sr_challenges_generated after = sr_challenges_generated before
  ∧ sr_dataset_challenges_used after = sr_dataset_challenges_used before
  ∧ ((∀ e p, (verify_response s data ip now).2 ≠ Verdict true e p) →
     sr_challenges_solved after = sr_challenges_solved before)
  ∧ (∀ cid r e p,
       vd_challenge_id data = Some cid → challenges s !! cid = Some r →
       (verify_response s data ip now).2 = Verdict true e p →
       sr_challenges_solved after
       = sr_challenges_solved before + (if solved r then 0 else 1)).
Proof.
  intros before after. subst before after. unfold status.
  cbn [sr_challenges_generated sr_dataset_challenges_used
       sr_challenges_solved].
  destruct (verify_response_table s data ip now)
    as [[-> Hno]|(cid & r & success & e & p & Hid & Hrow & Hv & ->)].
  { repeat split; try done. intros cid r e p _ _ Hv. by destruct (Hno e p). }
  destruct (attempted_counts (challenges s) cid r success Hrow)
    as (-> & -> & ->).
  split; [done|]. split; [done|]. split.
  - intros Hno. destruct success; [|lia]. by destruct (Hno e p).
  - intros cid' r' e' p' Hid' Hrow' Hv'.
    rewrite Hid in Hid'. injection Hid' as <-.
    rewrite Hrow in Hrow'. injection Hrow' as <-.
    rewrite Hv in Hv'. by injection Hv' as -> _ _.
Qed.

(** X7. What a creation request does to the figures of [/api/status]: when it
    returns, one more challenge is generated, none more is solved, and one
    more is from the dataset exactly when its kind is dataset_audio; when it
    raises, the three figures stay. *)
Theorem status_after_creation (s : server) (req : request) (t t' : string) :
  (∀ data ip now, req ≠ Verify data ip now) →
  let before := status s t in
  let after := status (serve' s req).1 t' in
  sr_challenges_solved after = sr_challenges_solved before
  ∧ match issued (serve' s req).2 with
    | Some (kind, _) =>
        sr_challenges_generated after = S (sr_challenges_generated before)
        ∧ sr_dataset_challenges_used after
          = sr_dataset_challenges_used before
            + (if decide (kind = "dataset_audio") then 1 else 0)
    | None =>
        sr_challenges_generated after = sr_challenges_generated before
        ∧ sr_dataset_challenges_used after
          = sr_dataset_challenges_used before
    end.
Proof.
  intros Hreq before after. subst before after. unfold status.
  cbn [sr_challenges_generated sr_dataset_challenges_used
       sr_challenges_solved].
  destruct (creation_table s req Hreq)
    as [[-> ->]|(id & fresh & Hid & Ha & Hs & -> & ->)]; [done|].
  by destruct (fresh_counts (challenges s) id fresh Hid Hs) as (-> & -> & ->).
Qed.

(** X8. Over any sequence of requests none of the three figures of
    [/api/status] ever goes down. *)
Theorem status_counts_never_decrease (s : server) (rs : list request)
    (t t' : string) :
  sr_challenges_generated (status s t)
    ≤ sr_challenges_generated (status (runs' s rs) t')
  ∧ sr_challenges_solved (status s t)
    ≤ sr_challenges_solved (status (runs' s rs) t')
  ∧ sr_dataset_challenges_used (status s t)
    ≤ sr_dataset_challenges_used (status (runs' s rs) t').
Proof.
  unfold status.
  cbn [sr_challenges_generated sr_dataset_challenges_used
       sr_challenges_solved].
  revert s. induction rs as [|req rs IH]; intros s; [done|].
  specialize (IH (serve' s req).1).
  change (runs' s (req :: rs)) with (runs' (serve' s req).1 rs).
  pose proof (handle_counts_le s req). lia.
Qed.

(** X9. On a running server attempts are never negative, a solved challenge has
    been attempted at least once, and a challenge without attempts is not
    solved. *)
Theorem solved_rows_were_attempted (s : server) (k : string)
    (r : challenge_row) :
  reach' s → challenges s !! k = Some r →
  (0 ≤ attempts r)%Z
  ∧ (solved r = true → (1 ≤ attempts r)%Z)
  ∧ (attempts r = 0%Z → solved r = false).
Proof.
  intros Hreach. revert k r.
  assert (∀ k r, challenges s !! k = Some r →
            (0 ≤ attempts r)%Z ∧ (solved r = true → (1 ≤ attempts r)%Z))
    as Hinv.
  2:{ intros k r Hk. destruct (Hinv k r Hk) as [H0 H1].
      split; [done|]. split; [done|].
      intros Hz. destruct (solved r); [|done]. specialize (H1 eq_refl). lia. }
  induction Hreach as [g|s req Hreach IH].
  { intros k r. unfold boot, initialize_dataset.
    destruct (load_audio_samples 100 _ g). cbn [challenges].
    by rewrite lookup_empty. }
  intros k r'. destruct req as [data ip now|u t1 t2|t1 t2].
  - rewrite handle_verify. cbn [fst].
    destruct (verify_response_table s data ip now)
      as [[-> _]|(cid & r & success & e & p & _ & Hrow & _ & ->)];
      [apply IH|].
    destruct (decide (cid = k)) as [->|Hne].
    + rewrite lookup_insert_eq. intros [= <-].
      destruct (IH k r Hrow) as [H0 _]. cbn [attempted attempts solved].
      split; lia.
    + rewrite lookup_insert_ne by done. apply IH.
  - destruct (creation_table s (Generate u t1 t2))
      as [[-> _]|(id & fresh & Hid & Ha & Hs & _ & ->)]; [done | apply IH |].
    destruct (decide (id = k)) as [->|Hne].
    + rewrite lookup_insert_eq. intros [= <-]. rewrite Ha, Hs.
      split; [lia | done].
    + rewrite lookup_insert_ne by done. apply IH.
  - destruct (creation_table s (Alternative t1 t2))
      as [[-> _]|(id & fresh & Hid & Ha & Hs & _ & ->)]; [done | apply IH |].
    destruct (decide (id = k)) as [->|Hne].
    + rewrite lookup_insert_eq. intros [= <-]. rewrite Ha, Hs.
      split; [lia | done].
    + rewrite lookup_insert_ne by done. apply IH.
Qed.

(** X10. A challenge becomes solved only through a verify call that names it and
    is answered success true: no other request, and no verify call with
    another outcome, turns an unsolved row into a solved one. *)
Theorem solved_only_by_successful_verify (s : server) (req : request)
    (k : string) (r r' : challenge_row) :
  challenges s !! k = Some r →
  challenges (serve' s req).1 !! k = Some r' →
  solved r = false → solved r' = true →
  ∃ data ip now e p,
    req = Verify data ip now
    ∧ vd_challenge_id data = Some k
    ∧ (serve' s req).2 = Verify_reply (Verdict true e p).
Proof.
  intros Hr Hr' Hunsolved Hsolved.
  destruct req as [data ip now|u t1 t2|t1 t2].
  - rewrite handle_verify in *. cbn [fst snd] in *.
    destruct (verify_response_table s data ip now)
      as [[Ht _]|(cid & r0 & success & e & p & Hid & Hrow & Hv & Ht)];
      rewrite Ht in Hr'; [congruence|].
    destruct (decide (cid = k)) as [->|Hne].
    2:{ rewrite lookup_insert_ne in Hr' by done. congruence. }
    rewrite lookup_insert_eq in Hr'. injection Hr' as <-.
    rewrite Hr in Hrow. injection Hrow as <-.
    cbn [attempted solved] in Hsolved.
    destruct success; [|congruence].
    exists data, ip, now, e, p. by rewrite Hv.
  - destruct (creation_table s (Generate u t1 t2))
      as [[Ht _]|(id & fresh & Hid & _ & _ & _ & Ht)]; [done | |];
      rewrite Ht in Hr'; [congruence|].
    rewrite lookup_insert_ne in Hr' by congruence. congruence.
  - destruct (creation_table s (Alternative t1 t2))
      as [[Ht _]|(id & fresh & Hid & _ & _ & _ & Ht)]; [done | |];
      rewrite Ht in Hr'; [congruence|].
    rewrite lookup_insert_ne in Hr' by congruence. congruence.
Qed.

(** X11. Round trip of a challenge: sending back the sequence a creation reply
    disclosed, under the id it returned, in a call the rate limiter admits,
    is answered success true and leaves the row solved at its first
    attempt. *)
Theorem issued_sequence_is_accepted (s : server) (ip : string) (now : Z) :
  (∀ use_dataset now_id now_row s1 created,
     generate' s use_dataset now_id now_row = (s1, Returned created) →
     rate_limited (challenge_attempts s1) ip now = false →
     let out :=
       verify_response s1
         {| vd_challenge_id := Some (gr_challenge_id created);
            vd_response := Some (PyStr (gr_sequence created)) |} ip now in
     (∃ e, out.2 = Verdict true e e)
     ∧ challenges out.1 !! gr_challenge_id created
       = Some {| sequence := gr_sequence created; created_at := now_row;
                 attempts := 1; solved := true;
                 challenge_type := gr_challenge_type created |})
  ∧ (∀ now_id now_row s1 created,
       alternative' s now_id now_row = (s1, Returned created) →
       rate_limited (challenge_attempts s1) ip now = false →
       let out :=
         verify_response s1
           {| vd_challenge_id := Some (ar_challenge_id created);
              vd_response := Some (PyStr (ar_sequence created)) |} ip now in
       (∃ e, out.2 = Verdict true e e)
       ∧ challenges out.1 !! ar_challenge_id created
         = Some {| sequence := ar_sequence created; created_at := now_row;
                   attempts := 1; solved := true;
                   challenge_type := "alternative" |}).
Proof.
  split.
  - intros u t1 t2 s1 created Hgen Hadm out.
    destruct (generate_returned md5_hexdigest datetime_str _ _ _ _ _ _ Hgen)
      as (Hid & Hseq & Hty & Htbl).
    set (row0 := {| sequence := gr_sequence created; created_at := t2;
                    attempts := 0; solved := false;
                    challenge_type := gr_challenge_type created |}).
    assert (challenges s1 !! gr_challenge_id created = Some row0) as Hrow.
    { subst row0. rewrite Htbl, Hid, Hseq, Hty. apply lookup_insert_eq. }
    destruct (verify_response_found s1
      {| vd_challenge_id := Some (gr_challenge_id created);
         vd_response := Some (PyStr (gr_sequence created)) |}
      ip now (gr_challenge_id created) row0) as [Hv Ht]; try done.
    { rewrite Hid. apply mint_id_truthy, md5_hexdigest_length. }
    fold out in Hv, Ht. cbn [vd_response default from_option Datatypes.id
                             py_str row0 sequence] in Hv, Ht.
    rewrite String.eqb_refl in Hv, Ht. split; [eauto|].
    rewrite Ht. apply lookup_insert_eq.
  - intros t1 t2 s1 created Hgen Hadm out.
    destruct (alternative_returned md5_hexdigest datetime_str _ _ _ _ _ Hgen)
      as (Hid & Hseq & Htbl).
    set (row0 := {| sequence := ar_sequence created; created_at := t2;
                    attempts := 0; solved := false;
                    challenge_type := "alternative" |}).
    assert (challenges s1 !! ar_challenge_id created = Some row0) as Hrow.
    { subst row0. rewrite Htbl, Hid, Hseq. apply lookup_insert_eq. }
    destruct (verify_response_found s1
      {| vd_challenge_id := Some (ar_challenge_id created);
         vd_response := Some (PyStr (ar_sequence created)) |}
      ip now (ar_challenge_id created) row0) as [Hv Ht]; try done.
    { rewrite Hid. apply mint_id_truthy, md5_hexdigest_length. }
    fold out in Hv, Ht. cbn [vd_response default from_option Datatypes.id
                             py_str row0 sequence] in Hv, Ht.
    rewrite String.eqb_refl in Hv, Ht. split; [eauto|].
    rewrite Ht. apply lookup_insert_eq.
Qed.

(** The audio related fields of a creation reply. *)
Lemma generate_reply_audio s use_dataset now_id now_row s1 created :
  generate' s use_dataset now_id now_row = (s1, Returned created) →
  gr_audio_url created
  = (if String.eqb (gr_challenge_type created) "dataset_audio"
     then Some ("/api/audio/" +:+ gr_challenge_id created) else None)
  ∧ gr_sequence_length created = String.length (gr_sequence created)
  ∧ (gr_challenge_type created = "dataset_audio"
     ∨ gr_challenge_type created = "synthetic").
Proof.
  unfold enhanced_generate_challenge.
  destruct (generated_challenge s (default (PyBool true) use_dataset))
    as [[c l] g].
  destruct (insert_challenge _ _ _ _ _); [|done].
  intros [= <- <-]. cbn. repeat split. destruct c; auto.
Qed.

(** X12. Every [audio_url] handed out resolves: when a creation reply carries an
    [audio_url], it is [/api/audio/] followed by the id returned, the kind
    is dataset_audio, and [serve_audio] on that id answers with the mock
    audio for the sequence disclosed, now and after any further requests;
    a reply without [audio_url] is of kind synthetic and [serve_audio]
    answers that audio is not available, as it does for every alternative
    challenge. *)
Theorem audio_url_resolves (s : server) (rs : list request) :
  (∀ use_dataset now_id now_row s1 created,
     generate' s use_dataset now_id now_row = (s1, Returned created) →
     match gr_audio_url created with
     | Some url =>
         url = "/api/audio/" +:+ gr_challenge_id created
         ∧ gr_challenge_type created = "dataset_audio"
         ∧ ∃ message note,
             serve_audio (runs' s1 rs) (gr_challenge_id created)
             = Audio_mock message note (gr_sequence created)
     | None =>
         gr_challenge_type created = "synthetic"
         ∧ serve_audio (runs' s1 rs) (gr_challenge_id created)
           = Audio_not_available
     end)
  ∧ (∀ now_id now_row s1 created,
       alternative' s now_id now_row = (s1, Returned created) →
       serve_audio (runs' s1 rs) (ar_challenge_id created)
       = Audio_not_available).
Proof.
  split.
  - intros u t1 t2 s1 created Hgen.
    destruct (generate_reply_audio _ _ _ _ _ _ Hgen) as (Hurl & _ & Hkind).
    destruct (generate_returned md5_hexdigest datetime_str _ _ _ _ _ _ Hgen)
      as (Hid & Hseq & Hty & Htbl).
    assert (∃ r', challenges (runs' s1 rs) !! gr_challenge_id created
                  = Some r'
                  ∧ sequence r' = gr_sequence created
                  ∧ challenge_type r' = gr_challenge_type created)
      as (r' & Hr' & Hs' & Ht').
    { edestruct (run_row_le md5_hexdigest datetime_str rs s1
                   (gr_challenge_id created)) as (r' & Hr' & Hs' & _ & Ht' & _).
      { rewrite Htbl, Hid. apply lookup_insert_eq. }
      exists r'. cbn [sequence challenge_type] in Hs', Ht'.
      by rewrite Hs', Ht', Hseq, Hty. }
    unfold serve_audio, select_sequence_type.
    rewrite Hurl, Hr'. cbn [fmap option_fmap option_map]. rewrite Hs', Ht'.
    destruct Hkind as [-> | ->]; cbn [String.eqb]; [|done].
    repeat split. eauto.
  - intros t1 t2 s1 created Hgen.
    destruct (alternative_returned md5_hexdigest datetime_str _ _ _ _ _ Hgen)
      as (Hid & Hseq & Htbl).
    edestruct (run_row_le md5_hexdigest datetime_str rs s1
                 (ar_challenge_id created)) as (r' & Hr' & _ & _ & Ht' & _).
    { rewrite Htbl, Hid. apply lookup_insert_eq. }
    unfold serve_audio, select_sequence_type.
    rewrite Hr'. cbn [fmap option_fmap option_map].
    cbn [challenge_type] in Ht'. by rewrite Ht'.
Qed.

(* ===================================================================== *)
(** ** The loader on a running server *)
(* ===================================================================== *)

(** The name [load_audio_samples] gives to sample [i]. *)
Lemma load_loop_files (todo i : nat) (files labels : list string) (g : rng) :
  (load_loop todo i files labels g).1.1
  = files ++ ((λ j, "/simulated/audio/audio_" +:+ fmt_03d j +:+ ".wav")
              <$> seq i todo).
Proof.
  revert i files labels g.
  induction todo as [|todo IH]; intros i files labels g.
  { cbn. by rewrite app_nil_r. }
  cbn [load_loop seq fmap list_fmap].
  destruct (randint 3 6 g) as [k g1].
  destruct (choices "0123456789" k g1) as [cs g2].
  rewrite IH. by rewrite <- app_assoc.
Qed.

Lemma get_random_captcha_keeps (l : SimpleDatasetLoader) (g : rng) :
  list_truthy (audio_files l) = true →
  (get_random_captcha l g).1.2 = l.
Proof.
  intros H. unfold get_random_captcha. rewrite H, H.
  by destruct (randint _ _ _).
Qed.

(** A loader with at least one sample, whose file names are not empty. *)
Lemma get_random_captcha_some (l : SimpleDatasetLoader) (g : rng) :
  list_truthy (audio_files l) = true →
  length (audio_files l) = length (text_labels l) →
  ∃ idx audio_path true_text,
    (get_random_captcha l g).1.1 = Some (audio_path, true_text)
    ∧ audio_files l !! idx = Some audio_path
    ∧ text_labels l !! idx = Some true_text.
Proof.
  intros H Hlen. unfold get_random_captcha. rewrite H, H.
  pose proof (randint_range 0 (length (audio_files l) - 1) g ltac:(lia))
    as Hidx.
  destruct (randint 0 (length (audio_files l) - 1) g) as [idx g2].
  cbn [fst snd] in *.
  assert (idx < length (audio_files l)) as Hlt.
  { destruct (audio_files l); [done|]. simpl in *. lia. }
  destruct (lookup_lt_is_Some_2 (audio_files l) idx Hlt) as [p Hp].
  destruct (lookup_lt_is_Some_2 (text_labels l) idx ltac:(lia)) as [t Ht].
  exists idx, p, t.
  by rewrite (nth_lookup_Some _ _ "" _ Hp), (nth_lookup_Some _ _ "" _ Ht).
Qed.

Lemma generated_challenge_keeps (s : server) (use_dataset : pyval) :
  list_truthy (audio_files (dataset_loader s)) = true →
  (generated_challenge s use_dataset).1.2 = dataset_loader s.
Proof.
  intros H. unfold generated_challenge, generate_challenge_from_dataset.
  destruct (py_truthy use_dataset && generator_use_dataset s).
  2:{ by destruct (generate_synthetic_challenge _). }
  destruct (negb (generator_use_dataset s)).
  { by destruct (generate_synthetic_challenge _). }
  pose proof (get_random_captcha_keeps (dataset_loader s) (random_state s) H)
    as Hk.
  destruct (get_random_captcha _ _) as [[r l1] g1]. cbn [fst snd] in Hk.
  subst l1. destruct r as [[audio_path true_text]|].
  - destruct (str_truthy audio_path && str_truthy true_text); [done|].
    by destruct (generate_synthetic_challenge _).
  - by destruct (generate_synthetic_challenge _).
Qed.

(** One request leaves a loaded loader, the generator flag and
    [dataset_initialized] as they are. *)
Lemma handle_keeps_source s req :
  list_truthy (audio_files (dataset_loader s)) = true →
  dataset_loader (serve' s req).1 = dataset_loader s
  ∧ generator_use_dataset (serve' s req).1 = generator_use_dataset s
  ∧ dataset_initialized (serve' s req).1 = dataset_initialized s.
Proof.
  intros H. destruct req as [data ip now|u t1 t2|t1 t2].
  - rewrite handle_verify. cbn [fst].
    destruct (rate_limited (challenge_attempts s) ip now) eqn:Hlim.
    + by rewrite verify_response_limited.
    + by rewrite (verify_response_shape s data ip now Hlim).
  - rewrite handle_generate. cbn [fst].
    pose proof (enhanced_generate_challenge_eq md5_hexdigest datetime_str
                  s u t1 t2) as Heq. cbv zeta in Heq.
    pose proof (generated_challenge_keeps s (default (PyBool true) u) H)
      as Hk.
    destruct (challenges s !! mint' _ t1).
    + by rewrite Heq.
    + by destruct Heq as (reply & -> & _).
  - rewrite handle_alternative. cbn [fst].
    pose proof (alternative_challenge_eq md5_hexdigest datetime_str
                  s t1 t2) as Heq. cbv zeta in Heq.
    destruct (challenges s !! mint' _ t1).
    + by rewrite Heq.
    + by destruct Heq as (reply & -> & _).
Qed.

Lemma boot_loader (g : rng) :
  audio_files (dataset_loader (boot g))
  = (λ j, "/simulated/audio/audio_" +:+ fmt_03d j +:+ ".wav") <$> seq 0 100
  ∧ length (text_labels (dataset_loader (boot g))) = 100
  ∧ loader_ok (dataset_loader (boot g))
  ∧ generator_use_dataset (boot g) = true
  ∧ dataset_initialized (boot g) = true.
Proof.
  unfold boot, initialize_dataset.
  pose proof (load_audio_samples_ok 100
                (download_dataset SimpleDatasetLoader_init) g) as [Hok Hlen].
  assert (audio_files
            (load_audio_samples 100
               (download_dataset SimpleDatasetLoader_init) g).1
          = (λ j, "/simulated/audio/audio_" +:+ fmt_03d j +:+ ".wav")
            <$> seq 0 100) as Hfiles.
  { unfold load_audio_samples.
    pose proof (load_loop_files 100 0 [] [] g) as H.
    by destruct (load_loop 100 0 [] [] g) as [[files labels] g']. }
  by destruct (load_audio_samples 100 _ g) as [l g'].
Qed.

Lemma run_keeps_source s rs :
  list_truthy (audio_files (dataset_loader s)) = true →
  dataset_loader (runs' s rs) = dataset_loader s
  ∧ generator_use_dataset (runs' s rs) = generator_use_dataset s
  ∧ dataset_initialized (runs' s rs) = dataset_initialized s.
Proof.
  revert s. induction rs as [|req rs IH]; intros s H; [done|].
  destruct (handle_keeps_source s req H) as (Hl & Hg & Hi).
  change (runs' s (req :: rs)) with (runs' (serve' s req).1 rs).
  destruct (IH (serve' s req).1) as (-> & -> & ->); [by rewrite Hl | done].
Qed.

(** X13. On a server that has started, whatever requests it has served: the
    loader still holds the hundred samples generated at start-up, and the
    dataset is reported available; a creation request whose [use_dataset]
    is absent or truthy gets a dataset_audio challenge whose answer is one
    of those hundred labels, never the synthetic fallback, and one whose
    [use_dataset] is falsy gets a synthetic challenge. *)
Theorem dataset_mode_on_running_server (g : rng) (rs : list request)
    (use_dataset : option pyval) :
  let s := runs' (boot g) rs in
  let c := (generated_challenge s (default (PyBool true) use_dataset)).1.1 in
  dataset_loader s = dataset_loader (boot g)
  ∧ length (text_labels (dataset_loader s)) = 100
  ∧ hr_dataset_available (home s) = true
  ∧ (py_truthy (default (PyBool true) use_dataset) = true →
     challenge_type_of c = "dataset_audio"
     ∧ challenge_text_of c ∈ text_labels (dataset_loader (boot g)))
  ∧ (py_truthy (default (PyBool true) use_dataset) = false →
     challenge_type_of c = "synthetic").
Proof.
  intros s c.
  destruct (boot_loader g) as (Hfiles & Hlen & [Hlabels Hlens] & Hflag & Hinit).
  assert (list_truthy (audio_files (dataset_loader (boot g))) = true)
    as Htruthy by by rewrite Hfiles.
  destruct (run_keeps_source (boot g) rs Htruthy) as (Hl & Hg & Hi).
  fold s in Hl, Hg, Hi.
  split; [done|]. split; [by rewrite Hl|]. split.
  { cbn [home hr_dataset_available]. by rewrite Hi. }
  subst c. unfold generated_challenge. rewrite Hg, Hflag, Hl.
  split.
  - intros ->. cbn [andb]. unfold generate_challenge_from_dataset.
    cbn [negb].
    destruct (get_random_captcha_some (dataset_loader (boot g))
                (random_state s) Htruthy Hlens)
      as (idx & audio_path & true_text & Hget & Hpath & Htext).
    destruct (get_random_captcha _ _) as [[r l1] g1]. cbn [fst] in Hget.
    subst r.
    assert (str_truthy audio_path = true) as ->.
    { rewrite Hfiles, list_lookup_fmap in Hpath.
      destruct (seq 0 100 !! idx); [|done]. by injection Hpath as <-. }
    apply list_elem_of_lookup_2 in Htext.
    assert (str_truthy true_text = true) as ->.
    { destruct (proj1 (Forall_forall _ _) Hlabels _ Htext) as [_ Hlen3].
      apply str_truthy_length. lia. }
    done.
  - intros ->. cbn [andb].
    pose proof (generate_synthetic_challenge_ok (random_state s)) as [_ Hty].
    by destruct (generate_synthetic_challenge _).
Qed.

End More.

(* ===================================================================== *)
(** ** The loader, the training targets and the version check *)
(* ===================================================================== *)

(** X14. [load_audio_samples(n)] discards what the loader held and leaves exactly
    [n] samples: file [i] is named [audio_] followed by [i] on three digits
    at least, there are [n] labels, the list returned has [n] pairs, and
    neither the files nor the labels depend on what was loaded before. *)
Theorem load_audio_samples_shape (n : nat) (l : SimpleDatasetLoader)
    (g : rng) :
  let l' := (load_audio_samples n l g).1 in
  audio_files l'
  = (λ i, "/simulated/audio/audio_" +:+ fmt_03d i +:+ ".wav") <$> seq 0 n
  ∧ length (text_labels l') = n
  ∧ length (load_audio_samples_result n l g) = n
  ∧ loader_use_dataset l' = loader_use_dataset l
  ∧ ∀ l0, audio_files (load_audio_samples n l0 g).1 = audio_files l'
          ∧ text_labels (load_audio_samples n l0 g).1 = text_labels l'.
Proof.
  intros l'. subst l'.
  destruct (load_audio_samples_ok n l g) as [[_ Hlens] Hlen].
  unfold load_audio_samples_result. rewrite length_zip_with, Hlens, Hlen.
  unfold load_audio_samples in *.
  pose proof (load_loop_files n 0 [] [] g) as Hfiles.
  destruct (load_loop n 0 [] [] g) as [[files labels] g'].
  cbn [fst snd audio_files text_labels loader_use_dataset] in *.
  repeat split; try done. lia.
Qed.

Lemma get_random_captcha_reload (l : SimpleDatasetLoader) (g : rng) :
  list_truthy (audio_files l) = false →
  0 < length (audio_files (load_audio_samples 50 l g).1) →
  get_random_captcha l g
  = get_random_captcha (load_audio_samples 50 l g).1
      (load_audio_samples 50 l g).2.
Proof.
  intros H Hpos. unfold get_random_captcha at 1 2. rewrite H.
  destruct (load_audio_samples 50 l g) as [l1 g1]. cbn [fst snd] in *.
  revert Hpos. destruct (audio_files l1) eqn:Hf; simpl; [lia|].
  intros _. by rewrite Hf.
Qed.

(** X15. [get_random_captcha] always returns a sample, never [(None, None)]: the
    path and the label it returns stand at the same index of the loader's
    two lists. A loader that holds samples is left as it is; an empty one
    is first filled with fifty samples. *)
Theorem get_random_captcha_returns_a_sample (l : SimpleDatasetLoader)
    (g : rng) :
  length (audio_files l) = length (text_labels l) →
  let l1 := (get_random_captcha l g).1.2 in
  (∃ idx audio_path true_text,
     (get_random_captcha l g).1.1 = Some (audio_path, true_text)
     ∧ audio_files l1 !! idx = Some audio_path
     ∧ text_labels l1 !! idx = Some true_text)
  ∧ (audio_files l ≠ [] → l1 = l)
  ∧ (audio_files l = [] →
     length (audio_files l1) = 50 ∧ length (text_labels l1) = 50).
Proof.
  intros Hlens l1. subst l1.
  destruct (list_truthy (audio_files l)) eqn:H.
  - rewrite (get_random_captcha_keeps l g H).
    split; [by apply get_random_captcha_some|].
    split; [done|]. intros Hnil. by rewrite Hnil in H.
  - destruct (load_audio_samples_ok 50 l g) as [[_ Hlens50] Hlen50].
    assert (0 < length (audio_files (load_audio_samples 50 l g).1))
      as Hpos by lia.
    assert (list_truthy (audio_files (load_audio_samples 50 l g).1) = true)
      as H50
      by (revert Hpos;
          destruct (audio_files (load_audio_samples 50 l g).1); simpl;
          [lia | done]).
    rewrite (get_random_captcha_reload l g H Hpos).
    rewrite (get_random_captcha_keeps _ _ H50).
    split; [by apply get_random_captcha_some|].
    split; [|intros _; lia].
    intros Hne. destruct (audio_files l); done.
Qed.

Lemma str_index_digit (c : ascii) :
  ascii_digit c = true →
  str_index (String c "") characters
  = Some (N.to_nat (Ascii.N_of_ascii c) - 48).
Proof.
  destruct c as [[] [] [] [] [] [] [] []]; vm_compute; congruence.
Qed.

Lemma str_index_bound (c : ascii) (n : nat) :
  str_index (String c "") characters = Some n → n < 36.
Proof.
  destruct c as [[] [] [] [] [] [] [] []]; vm_compute;
    intros [= <-] || discriminate; repeat constructor.
Qed.

Lemma ascii_digit_value (c : ascii) :
  ascii_digit c = true → N.to_nat (Ascii.N_of_ascii c) - 48 < 10.
Proof.
  destruct c as [[] [] [] [] [] [] [] []]; vm_compute;
    discriminate || (intros _; repeat constructor).
Qed.

(** X16. The targets [train_model] computes from the labels. Whenever the list
    comprehension does not raise, it has produced one target below 36 for
    each label that is not empty, and none for an empty one. For labels
    taken from what [load_audio_samples] generates it never raises, and
    produces exactly one target per label, each below 10. *)
Theorem y_numeric_targets :
  (∀ y targets,
     y_numeric y = Some targets →
     length targets = length (List.filter str_truthy y)
     ∧ Forall (λ t, t < 36) targets)
  ∧ (∀ n l g y,
       y ⊆ text_labels (load_audio_samples n l g).1 →
       ∃ targets,
         y_numeric y = Some targets
         ∧ length targets = length y
         ∧ Forall (λ t, t < 10) targets).
Proof.
  split.
  - induction y as [|label y IH]; intros targets.
    { by intros [= <-]. }
    cbn [y_numeric List.filter]. unfold label_targets.
    destruct label as [|c label]; cbn [str_take str_iter mapM str_truthy].
    + destruct (y_numeric y) as [ts|]; [|done]. intros [= <-]. by apply IH.
    + destruct (str_index (String c "") characters) as [t|] eqn:Ht; [|done].
      cbn. destruct (y_numeric y) as [ts|]; [|done]. intros [= <-].
      destruct (IH ts eq_refl) as [Hl Hf]. cbn [length].
      split; [by rewrite Hl|]. constructor; [|done].
      by eapply str_index_bound.
  - intros n l g y Hsub.
    destruct (load_audio_samples_ok n l g) as [[Hlabels _] _].
    assert (Forall (digit_sequence 3 6) y) as Hy.
    { apply Forall_forall. intros x Hx.
      apply (proj1 (Forall_forall _ _) Hlabels), Hsub, Hx. }
    clear Hsub Hlabels. induction Hy as [|label y [Hd [Hlen _]] _ IH].
    { by exists []. }
    destruct IH as (ts & Hts & Hl & Hf).
    destruct label as [|c label]; [simpl in Hlen; lia|].
    cbn [str_all] in Hd. apply andb_true_iff in Hd as [Hc _].
    exists ((N.to_nat (Ascii.N_of_ascii c) - 48) :: ts).
    cbn [y_numeric]. unfold label_targets.
    cbn [str_take str_iter mapM]. rewrite (str_index_digit c Hc). cbn.
    rewrite Hts. cbn [length]. split; [done|]. split; [by rewrite Hl|].
    constructor; [by apply ascii_digit_value | done].
Qed.

(** X17. [check_python_version] accepts exactly the versions that are not older
    than the minimum: a larger major number, or the same major number and a
    minor number that is not smaller. With the defaults it accepts 3.8,
    3.10 and 4.0 and refuses 3.7 and 2.9. *)
Theorem check_python_version_accepts (major minor min_major min_minor : nat) :
  (check_python_version major minor min_major min_minor = true
   ↔ min_major < major ∨ (major = min_major ∧ min_minor ≤ minor))
  ∧ check_python_version 3 8 3 8 = true
  ∧ check_python_version 3 10 3 8 = true
  ∧ check_python_version 4 0 3 8 = true
  ∧ check_python_version 3 7 3 8 = false
  ∧ check_python_version 2 9 3 8 = false.
Proof.
  split; [|done].
  unfold check_python_version, tuple_lt. cbn [fst snd].
  destruct (major =? min_major) eqn:Heq.
  - apply Nat.eqb_eq in Heq as ->.
    destruct (minor <? min_minor) eqn:Hlt.
    + apply Nat.ltb_lt in Hlt. split; [done | lia].
    + apply Nat.ltb_ge in Hlt. split; [intros _; right; lia | done].
  - apply Nat.eqb_neq in Heq.
    destruct (major <? min_major) eqn:Hlt.
    + apply Nat.ltb_lt in Hlt. split; [done | lia].
    + apply Nat.ltb_ge in Hlt. split; [intros _; left; lia | done].
Qed.

(* ===================================================================== *)
(** ** The further properties at concrete inputs *)
(* ===================================================================== *)

Lemma verify_response_ignores_non_digits_witness :
  verify_response Sample.one_pending
    {| vd_challenge_id := Some "c1";
       vd_response := Some (PyStr ("70" +:+ " - " +:+ "42")) |} "10.0.0.1" 0
  = verify_response Sample.one_pending
      {| vd_challenge_id := Some "c1";
         vd_response := Some (PyStr ("70" +:+ "42")) |} "10.0.0.1" 0.
Proof.
  apply (verify_response_ignores_non_digits Sample.one_pending (Some "c1")
           "70" " - " "42" "10.0.0.1" 0).
  reflexivity.
Defined.

Lemma verify_response_isolation_witness :
  challenge_attempts
    (verify_response Sample.one_pending_seen
       (Sample.body "c1" (PyStr "7042")) "10.0.0.9" 0).1 !! "10.0.0.1"
  = challenge_attempts Sample.one_pending_seen !! "10.0.0.1".
Proof.
  apply (verify_response_isolation Sample.one_pending_seen
           (Sample.body "c1" (PyStr "7042")) "10.0.0.9" 0).
  discriminate.
Defined.

Lemma last_attempt_only_moves_forward_witness :
  ∃ t', challenge_attempts
          (run Sample.md5 Sample.dt Sample.one_pending_seen
             [Verify (Sample.body "c1" (PyStr "0000")) "10.0.0.1" 11000000;
              Verify (Sample.body "c1" (PyStr "7042")) "10.0.0.1" 13000000])
        !! "10.0.0.1" = Some t'
        ∧ (t' = 10000000%Z ∨ (10000000 + 2000000 ≤ t')%Z).
Proof.
  apply (last_attempt_only_moves_forward Sample.md5 Sample.dt
           Sample.one_pending_seen _ "10.0.0.1" 10000000).
  reflexivity.
Defined.

Lemma status_after_verify_witness :
  sr_challenges_solved
    (status (verify_response Sample.one_pending
               (Sample.body "c1" (PyStr "7042")) "10.0.0.1" 0).1 "later")
  = sr_challenges_solved (status Sample.one_pending "sooner") + 1.
Proof.
  apply (status_after_verify Sample.one_pending
           (Sample.body "c1" (PyStr "7042")) "10.0.0.1" 0 "sooner" "later")
    with (cid := "c1") (r := Sample.row "7042" 0 false)
         (e := "7042") (p := "7042"); reflexivity.
Defined.

Lemma status_after_creation_witness :
  sr_challenges_solved
    (status (handle Sample.md5 Sample.dt Sample.one_solved
               (Alternative 7 8)).1 "later")
  = sr_challenges_solved (status Sample.one_solved "sooner").
Proof.
  apply (status_after_creation Sample.md5 Sample.dt Sample.one_solved
           (Alternative 7 8) "sooner" "later").
  discriminate.
Defined.

Lemma solved_rows_were_attempted_witness :
  (0 ≤ attempts Demo.issued_row)%Z
  ∧ (solved Demo.issued_row = true → (1 ≤ attempts Demo.issued_row)%Z)
  ∧ (attempts Demo.issued_row = 0%Z → solved Demo.issued_row = false).
Proof.
  apply (solved_rows_were_attempted Sample.md5 Sample.dt
           (handle Sample.md5 Sample.dt (boot Sample.draws)
              (Generate None 5 6)).1 "30750123456789ab" Demo.issued_row).
  - apply reachable_handle, reachable_boot.
  - by vm_compute.
Defined.

Lemma solved_only_by_successful_verify_witness :
  ∃ data ip now e p,
    Verify (Sample.body "c1" (PyStr "7042")) "10.0.0.1" 0
    = Verify data ip now
    ∧ vd_challenge_id data = Some "c1"
    ∧ (handle Sample.md5 Sample.dt Sample.one_pending
         (Verify (Sample.body "c1" (PyStr "7042")) "10.0.0.1" 0)).2
      = Verify_reply (Verdict true e p).
Proof.
  apply (solved_only_by_successful_verify Sample.md5 Sample.dt
           Sample.one_pending
           (Verify (Sample.body "c1" (PyStr "7042")) "10.0.0.1" 0) "c1"
           (Sample.row "7042" 0 false) (Sample.row "7042" 1 true));
    reflexivity.
Defined.

Lemma issued_sequence_is_accepted_witness :
  ∃ e, (verify_response Sample.after_generate
          {| vd_challenge_id := Some "704250123456789a";
             vd_response := Some (PyStr "7042") |} "10.0.0.1" 0).2
       = Verdict true e e.
Proof.
  destruct (issued_sequence_is_accepted Sample.md5 Sample.dt
              sample_md5_length Sample.empty_server "10.0.0.1" 0)
    as [Hgen _].
  destruct (Hgen None 5%Z 6%Z Sample.after_generate
              Sample.generate_reply_7042) as [Hv _];
    [reflexivity | reflexivity | exact Hv].
Defined.

Lemma audio_url_resolves_witness :
  ∃ message note,
    serve_audio (run Sample.md5 Sample.dt Demo.one_issued Demo.traffic)
      "30750123456789ab"
    = Audio_mock message note "307".
Proof.
  destruct (audio_url_resolves Sample.md5 Sample.dt Demo.started Demo.traffic)
    as [Hgen _].
  specialize (Hgen None 5%Z 6%Z Demo.one_issued Demo.issued_reply).
  cbn [Demo.issued_reply gr_audio_url gr_challenge_id gr_sequence] in Hgen.
  destruct Hgen as (_ & _ & H); [by vm_compute | exact H].
Defined.

Lemma dataset_mode_on_running_server_witness :
  challenge_type_of
    (generated_challenge
       (run Sample.md5 Sample.dt (boot Sample.draws) Demo.traffic)
       (default (PyBool true) (Some (PyInt 1)))).1.1
  = "dataset_audio".
Proof.
  apply (dataset_mode_on_running_server Sample.md5 Sample.dt Sample.draws
           Demo.traffic (Some (PyInt 1))).
  reflexivity.
Defined.

Lemma get_random_captcha_returns_a_sample_witness :
  ∃ idx audio_path true_text,
    (get_random_captcha SimpleDatasetLoader_init Sample.draws).1.1
    = Some (audio_path, true_text)
    ∧ audio_files
        (get_random_captcha SimpleDatasetLoader_init Sample.draws).1.2 !! idx
      = Some audio_path
    ∧ text_labels
        (get_random_captcha SimpleDatasetLoader_init Sample.draws).1.2 !! idx
      = Some true_text.
Proof.
  apply (get_random_captcha_returns_a_sample SimpleDatasetLoader_init
           Sample.draws).
  reflexivity.
Defined.

Lemma y_numeric_targets_witness :
  ∃ targets,
    y_numeric ["074185"; "963"] = Some targets
    ∧ length targets = 2
    ∧ Forall (λ t, t < 10) targets.
Proof.
  destruct y_numeric_targets as [_ H].
  apply (H 3 SimpleDatasetLoader_init Sample.draws ["074185"; "963"]).
  intros x Hx. apply list_elem_of_In in Hx. apply list_elem_of_In.
  vm_compute in Hx |- *. tauto.
Defined.

Lemma check_python_version_accepts_witness :
  check_python_version 3 11 3 8 = true.
Proof.
  apply (proj1 (check_python_version_accepts 3 11 3 8)). right. lia.
Defined.
